(** * golang/build: the NetBSD VM provisioning script and the tricium_simple recipe

    Two Python scripts are embedded here:

    - [env/netbsd-amd64/mkvm.py] (module [Mkvm]): boots a NetBSD image with
      the [anita] library, logs in, sends a fixed list of shell commands
      and halts the machine;
    - [recipes/recipes/tricium_simple.py] (module [TriciumSimple]): a
      recipe that fetches a Gerrit change, checks it out, lists the files
      of the patch and runs four Tricium analyzers, with its two test
      fixtures.

    Both scripts are straight-line sequences of calls into libraries that
    are not part of the repository ([anita], the recipe engine and its
    modules).  A library call is an event: the script appends it to the
    trace of calls made so far, and the environment decides, from the
    calls made before and the call itself, whether it returns a value or
    raises.  Exceptions are threaded through an error monad, so that
    [try: ... except: pass] and the absence of any handler are both
    visible in the model. *)

From Stdlib Require Import ZArith String Ascii DecimalString DecimalZ DecimalPos Lia.
From stdpp Require Import base list strings.

Open Scope string_scope.
Open Scope list_scope.

(** ** Exceptions and results *)

(** A Python exception, identified by the name of its class. *)
Definition exn := string.

Inductive result (A : Type) : Type :=
| Ok (a : A)
| Exc (e : exn).
Arguments Ok {A} a.
Arguments Exc {A} e.

(** ** Scripts that call an external library *)

Section Script.
Context {call value : Type}.

(** What the library does with a call. *)
Inductive response : Type :=
| Returns (v : value)
| Raises (e : exn).

(** The library: it sees the calls made before (oldest first) and the
    call being made. *)
Definition env : Type := list call -> call -> response.

(** A script fragment: given the library and the trace so far, the new
    trace and either a value or the exception that is propagating. *)
Definition M (A : Type) : Type := env -> list call -> list call * result A.

Definition ret {A} (a : A) : M A := fun _ h => (h, Ok a).

Definition raise {A} (e : exn) : M A := fun _ h => (h, Exc e).

Definition bind {A B} (m : M A) (k : A -> M B) : M B :=
  fun E h =>
    match m E h with
    | (h', Ok a) => k a E h'
    | (h', Exc e) => (h', Exc e)
    end.

(** A call into the library. *)
Definition invoke (c : call) : M value :=
  fun E h =>
    (h ++ [c], match E h c with Returns v => Ok v | Raises e => Exc e end).

(** A call made as a statement: what it returns is dropped. *)
Definition exec (c : call) : M unit := bind (invoke c) (fun _ => ret tt).

(** [try: m  except: handler] -- a bare [except] catches everything. *)
Definition try_except {A} (m : M A) (handler : exn -> M A) : M A :=
  fun E h =>
    match m E h with
    | (h', Ok a) => (h', Ok a)
    | (h', Exc e) => handler e E h'
    end.

(** [for x in l: body x] *)
Fixpoint for_each {A} (l : list A) (body : A -> M unit) : M unit :=
  match l with
  | [] => ret tt
  | x :: l' => bind (body x) (fun _ => for_each l' body)
  end.

(** Running a whole script: the trace starts empty. *)
Definition run {A} (m : M A) (E : env) : list call * result A := m E [].

(** Making the calls [cs] one after the other, ignoring what they
    return, until one raises. *)
Fixpoint perform (E : env) (h : list call) (cs : list call)
  : list call * result unit :=
  match cs with
  | [] => (h, Ok tt)
  | c :: cs' =>
      match E h c with
      | Returns _ => perform E (h ++ [c]) cs'
      | Raises e => (h ++ [c], Exc e)
      end
  end.

(** Every call of the trace [h] returned when it was made. *)
Definition returned (E : env) (h : list call) : Prop :=
  forall k c, h !! k = Some c -> exists v, E (take k h) c = Returns v.

(** Two responses that differ at most in the value returned. *)
Definition same_outcome (r r' : response) : Prop :=
  match r, r' with
  | Returns _, Returns _ => True
  | Raises e, Raises e' => e = e'
  | _, _ => False
  end.
End Script.

Arguments response : clear implicits.
Arguments env : clear implicits.
Arguments M : clear implicits.

Declare Scope script_scope.
Delimit Scope script_scope with script.
Notation "x <- m ;; k" := (bind m (fun x => k))
  (at level 100, m at next level, right associativity) : script_scope.
Notation "m ;;; k" := (bind m (fun _ => k))
  (at level 100, right associativity) : script_scope.

(** ** Python's [%] string formatting, for the conversions the scripts use *)

Inductive fmt_arg : Type :=
| FStr (s : string)
| FInt (n : Z).

(** [str(n)] and [%d] on an integer: decimal digits, a leading [-] for
    negative numbers, no padding. *)
Definition str_of_int (n : Z) : string := NilZero.string_of_int (Z.to_int n).

(** Reading a decimal numeral back. *)
Definition parse_int (s : string) : option Z :=
  Z.of_int <$> NilZero.int_of_string s.

(** Does the character occur in the string? *)
Fixpoint has_char (sep : ascii) (s : string) : bool :=
  match s with
  | EmptyString => false
  | String c rest => Ascii.eqb c sep || has_char sep rest
  end.

(** [s.split(sep)] for a one-character separator. *)
Fixpoint split_on (sep : ascii) (s : string) : list string :=
  match s with
  | EmptyString => [EmptyString]
  | String c rest =>
      if Ascii.eqb c sep then EmptyString :: split_on sep rest
      else match split_on sep rest with
           | [] => [String c EmptyString]
           | w :: ws => String c w :: ws
           end
  end.

Definition percent : ascii := "%"%char.

(** [fmt % args].  [%s] takes any argument, [%d] only an integer, [%%] is
    a literal percent sign; too few or too many arguments raise
    [TypeError], another conversion character [ValueError]. *)
Fixpoint pyformat (fmt : string) (args : list fmt_arg) : result string :=
  match fmt with
  | EmptyString =>
      match args with
      | [] => Ok EmptyString
      | _ :: _ => Exc "TypeError"
      end
  | String c rest =>
      if Ascii.eqb c percent then
        match rest with
        | EmptyString => Exc "ValueError"
        | String k rest' =>
            if Ascii.eqb k "s"%char then
              match args with
              | [] => Exc "TypeError"
              | FStr s :: args' =>
                  match pyformat rest' args' with
                  | Ok r => Ok (s +:+ r)
                  | Exc e => Exc e
                  end
              | FInt n :: args' =>
                  match pyformat rest' args' with
                  | Ok r => Ok (str_of_int n +:+ r)
                  | Exc e => Exc e
                  end
              end
            else if Ascii.eqb k "d"%char then
              match args with
              | FInt n :: args' =>
                  match pyformat rest' args' with
                  | Ok r => Ok (str_of_int n +:+ r)
                  | Exc e => Exc e
                  end
              | _ => Exc "TypeError"
              end
            else if Ascii.eqb k percent then
              match pyformat rest' args with
              | Ok r => Ok (String percent r)
              | Exc e => Exc e
              end
            else Exc "ValueError"
        end
      else
        match pyformat rest args with
        | Ok r => Ok (String c r)
        | Exc e => Exc e
        end
  end.

(** The formatting operator inside a script. *)
Definition fmt {call value} (f : string) (args : list fmt_arg) : M call value string :=
  match pyformat f args with
  | Ok s => ret s
  | Exc e => raise e
  end.

(** [l[i]] on a Python list, for a non-negative constant index. *)
Definition index {call value A} (l : list A) (i : nat) : M call value A :=
  match l !! i with
  | Some x => ret x
  | None => raise "IndexError"
  end.

(** ** env/netbsd-amd64/mkvm.py *)

Module Mkvm.

(** The calls the script makes into [anita].  Objects the library hands
    back (the URL object, the [Anita] object, the console [child]) and
    the exit status of a shell command are values chosen by the
    library, all represented as integers. *)
Inductive call : Type :=
| AnitaURL (url : string)
| AnitaAnita (dist : Z) (workdir disk_size memory_size : string) (persist : bool)
| Boot (a : Z)
| Login (child : Z)
| ShellCmd (child : Z) (cmd : string) (timeout : Z)
| Halt (a : Z).

Definition is_boot (c : call) : bool :=
  match c with Boot _ => true | _ => false end.
Definition is_halt (c : call) : bool :=
  match c with Halt _ => true | _ => false end.
Definition is_shell_cmd (c : call) : bool :=
  match c with ShellCmd _ _ _ => true | _ => false end.

(** The shell snippets sent to the guest, in the order of the trace. *)
Definition shell_cmds (tr : list call) : list string :=
  omap (fun c => match c with ShellCmd _ cmd _ => Some cmd | _ => None end) tr.

Definition Script : Type -> Type := M call Z.

Open Scope script_scope.

(** The [commands] list.  Five of its elements are built with [%], here
    bound first (the others are literals, so the order of evaluation is
    kept).  In the source the first, second and ninth snippets are
    triple-quoted literals, where backslash-dollar stays as it is and a
    doubled backslash is one backslash. *)
Definition commands (arch release : string) : Script (list string) :=
  c3 <- fmt "env PKG_PATH=http://ftp.netbsd.org/pub/pkgsrc/packages/NetBSD/%s/%s/All/ pkg_add bash curl" [FStr arch; FStr release] ;;
  c4 <- fmt "env PKG_PATH=http://ftp.netbsd.org/pub/pkgsrc/packages/NetBSD/%s/%s/All/ pkg_add git-base" [FStr arch; FStr release] ;;
  c5 <- fmt "env PKG_PATH=http://ftp.netbsd.org/pub/pkgsrc/packages/NetBSD/%s/%s/All/ pkg_add mozilla-rootcerts mozilla-rootcerts-openssl go14" [FStr arch; FStr release] ;;
  c6 <- fmt "env PKG_PATH=http://ftp.netbsd.org/pub/pkgsrc/packages/NetBSD/%s/%s/All/ pkg_add emacs25-nox11 vim screen" [FStr arch; FStr release] ;;
  c7 <- fmt "env PKG_PATH=http://ftp.netbsd.org/pub/pkgsrc/packages/NetBSD/%s/%s/All/ pkg_add clang cmake" [FStr arch; FStr release] ;;
  ret [
  "cat >> /etc/rc.local <<EOF
(
  export PATH=/usr/pkg/bin:/usr/pkg/sbin:${PATH}
  export GOROOT_BOOTSTRAP=/usr/pkg/go14
  set -x
  echo 'starting buildlet script'
  netstat -rn
  cat /etc/resolv.conf
  dig metadata.google.internal
  (
    set -e
    curl -o /buildlet \$(curl -H 'Metadata-Flavor: Google' http://metadata.google.internal/computeMetadata/v1/instance/attributes/buildlet-binary-url)
    chmod +x /buildlet
    exec /buildlet
  )
  echo 'giving up'
  sleep 10
  halt -p
)
EOF";
  "cat > /etc/ifconfig.vioif0 << EOF
!dhcpcd
mtu 1460
EOF";
  "dhcpcd";
  c3;
  c4;
  c5;
  c6;
  c7;
  "ed /etc/fstab << EOF
H
/\/tmp/d
wq
EOF";
  "echo sshd=yes >> /etc/rc.conf";
  "echo PermitRootLogin without-password >> /etc/ssh/sshd_config";
  "/etc/rc.d/sshd restart";
  "sync; shutdown -hp now"
  ].

(** The script, top to bottom; [argv] is [sys.argv]. *)
Definition mkvm (argv : list string) : Script unit :=
  arch <- index argv 1 ;;
  release <- index argv 2 ;;
  commands <- commands arch release ;;
  url <- fmt "https://cdn.netbsd.org/pub/NetBSD/NetBSD-9.0/%s/" [FStr arch] ;;
  dist <- invoke (AnitaURL url) ;;
  workdir <- fmt "work-NetBSD-%s" [FStr arch] ;;
  a <- invoke (AnitaAnita dist workdir "16G" "2G" true) ;;
  child <- invoke (Boot a) ;;
  exec (Login child) ;;;
  for_each commands (fun cmd => exec (ShellCmd child cmd 3600)) ;;;
  try_except (exec (Halt a)) (fun _ => ret tt).

Close Scope script_scope.

(** *** Vocabulary of the properties *)

(** The value of the [commands] list: building it makes no call and
    does not depend on the library. *)
Definition commands_value (arch release : string) : list string :=
  match run (commands arch release) (fun _ _ => Returns 0%Z) with
  | (_, Ok l) => l
  | (_, Exc _) => []
  end.

(** The shape of a [pkg_add] snippet for the packages [pkgs]. *)
Definition pkg_add (arch release pkgs : string) : string :=
  "env PKG_PATH=http://ftp.netbsd.org/pub/pkgsrc/packages/NetBSD/"
    +:+ arch +:+ "/" +:+ release +:+ "/All/ pkg_add " +:+ pkgs.

Definition image_url (arch : string) : string :=
  "https://cdn.netbsd.org/pub/NetBSD/NetBSD-9.0/" +:+ arch +:+ "/".

Definition work_dir (arch : string) : string := "work-NetBSD-" +:+ arch.

Definition shell_calls (child : Z) (cmds : list string) : list call :=
  map (fun cmd => ShellCmd child cmd 3600) cmds.

(** The calls of a run in which nothing raises before the halt: [dist],
    [a] and [child] are the objects the library handed back. *)
Definition full_trace (arch release : string) (dist a child : Z) : list call :=
  [AnitaURL (image_url arch);
   AnitaAnita dist (work_dir arch) "16G" "2G" true;
   Boot a;
   Login child]
  ++ shell_calls child (commands_value arch release) ++ [Halt a].

Definition boots (tr : list call) : nat := length (List.filter is_boot tr).
Definition halts (tr : list call) : nat := length (List.filter is_halt tr).

(** *** Sample runs *)

Definition sample_argv : list string := ["mkvm.py"; "amd64"; "9.0"].

(** A library in which every call returns. *)
Definition env_ok : env call Z :=
  fun _ c =>
    match c with
    | AnitaURL _ => Returns 1%Z
    | AnitaAnita _ _ _ _ _ => Returns 2%Z
    | Boot _ => Returns 3%Z
    | _ => Returns 0%Z
    end.

(** The halt times out; everything else returns. *)
Definition env_halt_timeout : env call Z :=
  fun h c =>
    match c with
    | Halt _ => Raises "pexpect.TIMEOUT"
    | _ => env_ok h c
    end.

(** Every shell command ends with exit status 1; nothing raises. *)
Definition env_exit_status_1 : env call Z :=
  fun h c =>
    match c with
    | ShellCmd _ _ _ => Returns 1%Z
    | _ => env_ok h c
    end.

(** The console is lost while [dhcpcd] runs. *)
Definition env_dhcpcd_eof : env call Z :=
  fun h c =>
    match c with
    | ShellCmd _ cmd _ =>
        if String.eqb cmd "dhcpcd" then Raises "pexpect.EOF" else env_ok h c
    | _ => env_ok h c
    end.

End Mkvm.

(** ** recipes/recipes/tricium_simple.py *)

Module TriciumSimple.

(** [api.tricium.analyzers]: the members the recipe names. *)
Inductive analyzer : Type :=
| HTTPS_CHECK
| SPELLCHECKER
| INCLUSIVE_LANGUAGE_CHECK
| COPYRIGHT.

(** A recipe path: a named base directory and the pieces joined to it. *)
Record Path : Type := { base : string; pieces : list string }.

(** [api.path['start_dir']] *)
Definition start_dir : Path := {| base := "start_dir"; pieces := [] |}.

(** [p.join(piece, ...)] *)
Definition join (p : Path) (more : list string) : Path :=
  {| base := base p; pieces := pieces p ++ more |}.

(** What a module call hands back to the recipe: a description, a list
    of files, or nothing of interest. *)
Inductive value : Type :=
| VNone
| VStr (s : string)
| VFiles (l : list string).

(** [api.tryserver.gerrit_change] *)
Record GerritChange : Type :=
  { host : string; project : string; change : Z; patchset : Z }.

(** The properties of [api] the recipe reads. *)
Record Api : Type :=
  { gerrit_change_repo_project : string;
    gerrit_change : GerritChange }.

(** The module calls the recipe makes, with their arguments. *)
Inductive call : Type :=
| get_change_description (host_url : string) (change patchset : Z)
| checkout (url ref : string) (dir_path : Path) (submodules : bool)
| get_files_affected_by_patch (patch_root report_files_via_property : string)
| run_legacy (analyzers : list analyzer) (input_base : Path)
             (affected_files commit_message : value).

Definition is_run_legacy (c : call) : bool :=
  match c with run_legacy _ _ _ _ => true | _ => false end.

Definition Script : Type -> Type := M call value.

Open Scope script_scope.

Definition RunSteps (api : Api) : Script unit :=
  let project := gerrit_change_repo_project api in
  host_url <- fmt "https://%s" [FStr (host (gerrit_change api))] ;;
  commit_message <- invoke (get_change_description host_url
                              (change (gerrit_change api))
                              (patchset (gerrit_change api))) ;;
  let repo_path := join start_dir [project] in
  url <- fmt "https://%s/%s" [FStr (host (gerrit_change api));
                              FStr (TriciumSimple.project (gerrit_change api))] ;;
  ref <- fmt "refs/changes/%d/%d/%d" [FInt (change (gerrit_change api) mod 100);
                                      FInt (change (gerrit_change api));
                                      FInt (patchset (gerrit_change api))] ;;
  exec (checkout url ref repo_path false) ;;;
  affected_files <- invoke (get_files_affected_by_patch project "affected_files") ;;
  let analyzers := [HTTPS_CHECK; SPELLCHECKER; INCLUSIVE_LANGUAGE_CHECK; COPYRIGHT] in
  exec (run_legacy analyzers repo_path affected_files commit_message).

Close Scope script_scope.

(** *** GenTests *)

(** [api.buildbucket.try_build(...)] *)
Record TryBuild : Type :=
  { tb_project : string;
    builder : string;
    git_repo : string;
    change_number : Z;
    patch_set : Z }.

Inductive post_hook : Type :=
| post_check_StatusSuccess
| post_process_DropExpectation.

(** The test data a fixture accumulates with [+]. *)
Record TestData : Type :=
  { name : option string;
    buildbucket : list TryBuild;
    platform : list (string * Z);
    path_exists : list Path;
    post_hooks : list post_hook }.

Definition test_add (t u : TestData) : TestData :=
  {| name := match name t with Some n => Some n | None => name u end;
     buildbucket := buildbucket t ++ buildbucket u;
     platform := platform t ++ platform u;
     path_exists := path_exists t ++ path_exists u;
     post_hooks := post_hooks t ++ post_hooks u |}.

Definition api_test (n : string) (parts : list TestData) : TestData :=
  foldl test_add
    {| name := Some n; buildbucket := []; platform := [];
       path_exists := []; post_hooks := [] |} parts.

Definition try_build (b : TryBuild) : TestData :=
  {| name := None; buildbucket := [b]; platform := [];
     path_exists := []; post_hooks := [] |}.

Definition api_platform (os : string) (bits : Z) : TestData :=
  {| name := None; buildbucket := []; platform := [(os, bits)];
     path_exists := []; post_hooks := [] |}.

Definition api_path_exists (ps : list Path) : TestData :=
  {| name := None; buildbucket := []; platform := [];
     path_exists := ps; post_hooks := [] |}.

Definition api_post (h : post_hook) : TestData :=
  {| name := None; buildbucket := []; platform := [];
     path_exists := []; post_hooks := [h] |}.

Definition test_with_patch (n : string) (affected_files : list string) : TestData :=
  let test :=
    api_test n
      [ try_build {| tb_project := "go";
                     builder := "tricium-simple";
                     git_repo := "https://go.googlesource.com/go";
                     change_number := 86753;
                     patch_set := 1 |};
        api_platform "linux" 64 ] in
  let existing_files :=
    map (fun f => join start_dir ["go"; f]) affected_files in
  test_add test (api_path_exists existing_files).

Definition GenTests : list TestData :=
  [ test_add (test_add (test_with_patch "one_file" ["README.md"])
                       (api_post post_check_StatusSuccess))
             (api_post post_process_DropExpectation);
    test_add (test_add (test_with_patch "many_files"
                          ["go.mod"; "go.sum"; "build.go"; "LICENSE";
                           "README.md"; "main.go"])
                       (api_post post_check_StatusSuccess))
             (api_post post_process_DropExpectation) ].

(** *** Running a fixture *)

(** The overall status the engine reports for a run of [RunSteps]. *)
Inductive status : Type :=
| SUCCESS
| FAILURE (e : exn).

Definition status_of (r : result unit) : status :=
  match r with
  | Ok _ => SUCCESS
  | Exc e => FAILURE e
  end.

(** The engine builds [api.tryserver.gerrit_change] from the fixture's
    try build: the change number and the patch set are the fixture's.
    Host and project names are derived from [git_repo] by the engine. *)
Definition input_of (t : TestData) (api : Api) : Prop :=
  exists b, buildbucket t = [b] /\
            change (gerrit_change api) = change_number b /\
            patchset (gerrit_change api) = patch_set b.

(** A simulation in which every module call returns: what the engine
    does for a fixture that injects no failing step. *)
Definition all_steps_return (E : env call value) : Prop :=
  forall h c, exists v, E h c = Returns v.

(** Every [post_check(StatusSuccess)] of the fixture holds of the run. *)
Definition post_checks_hold (t : TestData) (st : status) : Prop :=
  post_check_StatusSuccess ∈ post_hooks t -> st = SUCCESS.

(** *** Vocabulary of the properties *)

(** [refs/changes/<c mod 100>/<c>/<p>], every number in plain decimal. *)
Definition change_ref (c p : Z) : string :=
  "refs/changes/" +:+ str_of_int (c mod 100) +:+ "/" +:+ str_of_int c
    +:+ "/" +:+ str_of_int p.

(** The four calls of the recipe, in the order it makes them. *)
Definition fetch_call (api : Api) : call :=
  get_change_description ("https://" +:+ host (gerrit_change api))
    (change (gerrit_change api)) (patchset (gerrit_change api)).

Definition checkout_call (api : Api) : call :=
  checkout ("https://" +:+ host (gerrit_change api) +:+ "/"
              +:+ project (gerrit_change api))
    (change_ref (change (gerrit_change api)) (patchset (gerrit_change api)))
    (join start_dir [gerrit_change_repo_project api]) false.

Definition files_call (api : Api) : call :=
  get_files_affected_by_patch (gerrit_change_repo_project api) "affected_files".

Definition analyze_call (api : Api) (files msg : value) : call :=
  run_legacy [HTTPS_CHECK; SPELLCHECKER; INCLUSIVE_LANGUAGE_CHECK; COPYRIGHT]
    (join start_dir [gerrit_change_repo_project api]) files msg.

Definition analyzer_runs (tr : list call) : nat :=
  length (List.filter is_run_legacy tr).

(** Reading a change ref back: the three numbers of
    [refs/changes/<a>/<b>/<p>]. *)
Definition parse_ref (s : string) : option (Z * Z * Z) :=
  match split_on "/" s with
  | [r; c; a; b; p] =>
      if String.eqb r "refs" && String.eqb c "changes" then
        match parse_int a, parse_int b, parse_int p with
        | Some a', Some b', Some p' => Some (a', b', p')
        | _, _, _ => None
        end
      else None
  | _ => None
  end.

(** The calls whose result the recipe keeps in a variable. *)
Definition result_kept (c : call) : bool :=
  match c with
  | get_change_description _ _ _ => true
  | get_files_affected_by_patch _ _ => true
  | _ => false
  end.

(** *** Sample runs *)

Definition sample_api : Api :=
  {| gerrit_change_repo_project := "go";
     gerrit_change := {| host := "go-review.googlesource.com";
                         project := "go";
                         change := 86753;
                         patchset := 1 |} |}.

(** A change whose number ends in a single digit modulo 100. *)
Definition sample_api_05 : Api :=
  {| gerrit_change_repo_project := "go";
     gerrit_change := {| host := "go-review.googlesource.com";
                         project := "go";
                         change := 86705;
                         patchset := 2 |} |}.

(** Every module call returns. *)
Definition env_sim : env call value :=
  fun _ c =>
    match c with
    | get_change_description _ _ _ => Returns (VStr "doc: fix typo")
    | get_files_affected_by_patch _ _ => Returns (VFiles ["go/README.md"])
    | _ => Returns VNone
    end.

(** As [env_sim], but the checkout and the analyzer run hand back
    results of their own. *)
Definition env_sim_findings : env call value :=
  fun h c =>
    match c with
    | checkout _ _ _ _ => Returns (VStr "HEAD is now at 1a2b3c4")
    | run_legacy _ _ _ _ => Returns (VFiles ["comment: spelling"])
    | _ => env_sim h c
    end.

(** The checkout step fails. *)
Definition env_checkout_fails : env call value :=
  fun h c =>
    match c with
    | checkout _ _ _ _ => Raises "StepFailure"
    | _ => env_sim h c
    end.

End TriciumSimple.

(** * Properties *)

(** ** The script monad *)

Section ScriptFacts.
Context {call value : Type}.
Implicit Types (E : env call value) (h cs : list call) (c : call).

Lemma returned_nil E : returned E [].
Proof. intros k c Hk. rewrite lookup_nil in Hk. discriminate. Qed.

Lemma returned_snoc E h c v :
  returned E h -> E h c = Returns v -> returned E (h ++ [c]).
Proof.
  intros Hh Hc k c' Hk.
  apply lookup_snoc_Some in Hk as [[Hlt Hk] | [-> <-]].
  - rewrite take_app_le by lia. by apply Hh.
  - rewrite take_app_length. eauto.
Qed.

(** A returned call is not a raising one. *)
Lemma returned_not_raises E h k c e :
  returned E h -> h !! k = Some c -> E (take k h) c = Raises e -> False.
Proof.
  intros Hh Hk He. destruct (Hh k c Hk) as [v Hv]. congruence.
Qed.

Lemma returned_snoc_lookup E h c k c' e :
  returned E h -> (h ++ [c]) !! k = Some c' ->
  E (take k (h ++ [c])) c' = Raises e ->
  k = length h /\ c' = c /\ E h c = Raises e.
Proof.
  intros Hh Hk He.
  apply lookup_snoc_Some in Hk as [[Hlt Hk] | [-> <-]].
  - rewrite take_app_le in He by lia.
    destruct (returned_not_raises E h k c' e Hh Hk He).
  - rewrite take_app_length in He. done.
Qed.

(** What [perform] does: it stops after the first call that raises. *)
Lemma perform_spec E cs : forall h,
  returned E h ->
  exists k, k <= length cs /\ fst (perform E h cs) = h ++ take k cs /\
    match snd (perform E h cs) with
    | Ok _ => k = length cs /\ returned E (h ++ cs)
    | Exc e => exists j c, k = S j /\ cs !! j = Some c /\
                           returned E (h ++ take j cs) /\
                           E (h ++ take j cs) c = Raises e
    end.
Proof.
  induction cs as [|c cs IH]; intros h Hh; simpl.
  - exists 0. rewrite !app_nil_r. repeat split; [lia | done].
  - destruct (E h c) as [v|e] eqn:Hc; simpl.
    + destruct (IH (h ++ [c]) (returned_snoc E h c v Hh Hc))
        as (k & Hk & Htr & Hr).
      exists (S k). split; [lia|]. split.
      * rewrite Htr, <- app_assoc. reflexivity.
      * destruct (snd (perform E (h ++ [c]) cs)) as [u|e].
        -- destruct Hr as [-> Hr]. split; [done|].
           by rewrite <- app_assoc in Hr.
        -- destruct Hr as (j & c' & -> & Hj & Hret & Hrs).
           exists (S j), c'. rewrite <- app_assoc in Hret, Hrs. done.
    + exists 1. split; [lia|]. split; [done|].
      exists 0, c. simpl. rewrite app_nil_r. done.
Qed.

(** [perform] looks at the library only through raise or return. *)
Lemma perform_ext E E' cs : forall h,
  (forall h c, c ∈ cs -> same_outcome (E h c) (E' h c)) ->
  perform E h cs = perform E' h cs.
Proof.
  induction cs as [|c cs IH]; intros h Hsame; simpl; [done|].
  pose proof (Hsame h c ltac:(left)) as Hc.
  destruct (E h c) as [v|e], (E' h c) as [v'|e']; cbn in Hc; try done.
  - apply IH. intros h' c' Hc'. apply Hsame. by right.
  - by subst.
Qed.

Lemma exec_eq E h c :
  exec c E h
  = (h ++ [c], match E h c with Returns _ => Ok tt | Raises e => Exc e end).
Proof. unfold exec, bind, invoke, ret. by destruct (E h c). Qed.

(** The loop of a script whose body makes one call is [perform]. *)
Lemma for_each_perform {A} (mk : A -> call) E (l : list A) : forall h,
  for_each l (fun x => exec (mk x)) E h = perform E h (map mk l).
Proof.
  induction l as [|x l IH]; intros h; simpl; [done|].
  unfold bind. rewrite exec_eq.
  destruct (E h (mk x)); [apply IH | done].
Qed.
End ScriptFacts.

(** ** String formatting *)

Section FormatFacts.

Lemma append_nil_r (s : string) : s +:+ "" = s.
Proof.
  induction s as [|c s IH]; [reflexivity|].
  change (String c (s +:+ "") = String c s). by f_equal.
Qed.

Example pyformat_s : pyformat "a/%s/%s" [FStr "x"; FStr "y"] = Ok "a/x/y".
Proof. reflexivity. Qed.

Example pyformat_d : pyformat "%d-%d" [FInt 7; FInt (-12)] = Ok "7--12".
Proof. reflexivity. Qed.

Example pyformat_too_few : pyformat "%s/%s" [FStr "x"] = Exc "TypeError".
Proof. reflexivity. Qed.

Example pyformat_d_of_str : pyformat "%d" [FStr "x"] = Exc "TypeError".
Proof. reflexivity. Qed.

(** The numeral of a number reads back as the number. *)
Lemma parse_str_of_int (n : Z) : parse_int (str_of_int n) = Some n.
Proof.
  unfold parse_int, str_of_int.
  rewrite NilZero.isi.
  - cbn. by rewrite DecimalZ.of_to.
  - destruct n; cbn; try discriminate.
    intros [= H]. by apply DecimalPos.Unsigned.to_uint_nonnil in H.
  - destruct n; cbn; try discriminate.
    intros [= H]. by apply DecimalPos.Unsigned.to_uint_nonnil in H.
Qed.

(** Below one hundred: one digit under ten, two from ten on. *)
Lemma str_of_int_below_100 (k : nat) :
  (k < 100)%nat ->
  String.length (str_of_int (Z.of_nat k)) = if (k <? 10)%nat then 1 else 2.
Proof.
  intros Hk.
  do 100 (destruct k as [|k]; [reflexivity|]). lia.
Qed.

Lemma str_of_int_mod_100 (c : Z) :
  ((c mod 100 < 10)%Z -> String.length (str_of_int (c mod 100)) = 1) /\
  ((10 <= c mod 100)%Z -> String.length (str_of_int (c mod 100)) = 2).
Proof.
  pose proof (Z.mod_pos_bound c 100 ltac:(lia)) as Hm.
  set (m := (c mod 100)%Z) in *.
  pose proof (str_of_int_below_100 (Z.to_nat m) ltac:(lia)) as Hl.
  rewrite Z2Nat.id in Hl by lia.
  split; intros Hc; rewrite Hl;
    destruct (Nat.ltb_spec (Z.to_nat m) 10); first [done | lia].
Qed.
End FormatFacts.

(** ** mkvm.py *)

Section MkvmFacts.
Import Mkvm.
Implicit Types (E : env call Z) (argv : list string) (arch release : string).

Lemma commands_eval arch release E h :
  commands arch release E h = (h, Ok (commands_value arch release)).
Proof. reflexivity. Qed.

Lemma fmt_image_url arch E h :
  fmt "https://cdn.netbsd.org/pub/NetBSD/NetBSD-9.0/%s/" [FStr arch] E h
  = (h, Ok (image_url arch)).
Proof. reflexivity. Qed.

Lemma fmt_work_dir arch E h :
  fmt "work-NetBSD-%s" [FStr arch] E h = (h, Ok (work_dir arch)).
Proof.
  change (fmt "work-NetBSD-%s" [FStr arch] E h)
    with (h, Ok ("work-NetBSD-" +:+ (arch +:+ ""))).
  by rewrite append_nil_r.
Qed.

(** The halt is wrapped in a handler that catches everything. *)
Lemma halt_suppressed a E h :
  try_except (exec (Halt a)) (fun _ => ret tt) E h = (h ++ [Halt a], Ok tt).
Proof.
  unfold try_except. rewrite exec_eq. by destruct (E h (Halt a)).
Qed.

(** The script, with its binds unfolded. *)
Lemma mkvm_unfold argv arch release E :
  argv !! 1 = Some arch -> argv !! 2 = Some release ->
  run (mkvm argv) E =
    let c1 := AnitaURL (image_url arch) in
    match E [] c1 with
    | Raises e => ([c1], Exc e)
    | Returns dist =>
        let c2 := AnitaAnita dist (work_dir arch) "16G" "2G" true in
        match E [c1] c2 with
        | Raises e => ([c1; c2], Exc e)
        | Returns a =>
            match E [c1; c2] (Boot a) with
            | Raises e => ([c1; c2; Boot a], Exc e)
            | Returns child =>
                match E [c1; c2; Boot a] (Login child) with
                | Raises e => ([c1; c2; Boot a; Login child], Exc e)
                | Returns _ =>
                    match perform E [c1; c2; Boot a; Login child]
                            (shell_calls child (commands_value arch release))
                    with
                    | (h, Exc e) => (h, Exc e)
                    | (h, Ok _) => (h ++ [Halt a], Ok tt)
                    end
                end
            end
        end
    end.
Proof.
  intros Harch Hrel.
  unfold run, mkvm, bind, index. rewrite Harch, Hrel. unfold ret at 1 2.
  cbv beta iota zeta. rewrite commands_eval, fmt_image_url.
  unfold invoke at 1. cbn [app].
  destruct (E [] _) as [dist|e]; [|reflexivity].
  rewrite fmt_work_dir. unfold invoke at 1. cbn [app].
  destruct (E [_] _) as [a|e]; [|reflexivity].
  unfold invoke at 1. cbn [app].
  destruct (E [_; _] _) as [child|e]; [|reflexivity].
  rewrite exec_eq. cbn [app].
  destruct (E [_; _; _] _) as [u|e]; [|reflexivity].
  rewrite for_each_perform. fold (shell_calls child (commands_value arch release)).
  destruct (perform _ _ _) as [h [[]|e]]; [|reflexivity].
  apply halt_suppressed.
Qed.

Lemma shell_calls_lookup child cmds j c :
  shell_calls child cmds !! j = Some c ->
  exists cmd, cmds !! j = Some cmd /\ c = ShellCmd child cmd 3600.
Proof.
  unfold shell_calls. intros Hj.
  change (map ?f ?l) with (f <$> l) in Hj.
  apply list_lookup_fmap_Some in Hj as (cmd & ? & ?). eauto.
Qed.

(** Every run with both arguments: the trace is an initial segment of
    [full_trace], every call but the last returned, and the run ends
    either after the halt or with the exception of its last call. *)
Lemma mkvm_shape argv arch release E :
  argv !! 1 = Some arch -> argv !! 2 = Some release ->
  exists dist a child h c,
    fst (run (mkvm argv) E) = h ++ [c] /\
    h ++ [c] `prefix_of` full_trace arch release dist a child /\
    returned E h /\
    (h <> [] -> E [] (AnitaURL (image_url arch)) = Returns dist) /\
    match snd (run (mkvm argv) E) with
    | Ok _ => h ++ [c] = full_trace arch release dist a child
    | Exc e => E h c = Raises e /\ is_halt c = false
    end.
Proof.
  intros Harch Hrel. rewrite (mkvm_unfold argv arch release E Harch Hrel).
  cbv zeta. unfold full_trace. cbn [app].
  pose proof (returned_nil E) as R0.
  destruct (E [] _) as [dist|e] eqn:H1.
  2:{ exists 0%Z, 0%Z, 0%Z, [], (AnitaURL (image_url arch)).
      repeat split; first [ done | by repeat apply prefix_cons; apply prefix_nil ]. }
  pose proof (returned_snoc E [] _ _ R0 H1) as R1. cbn [app] in R1.
  destruct (E [_] _) as [a|e] eqn:H2.
  2:{ exists dist, 0%Z, 0%Z, [AnitaURL (image_url arch)],
        (AnitaAnita dist (work_dir arch) "16G" "2G" true).
      repeat split; first [ done | by repeat apply prefix_cons; apply prefix_nil ]. }
  pose proof (returned_snoc E [_] _ _ R1 H2) as R2. cbn [app] in R2.
  destruct (E [_; _] _) as [child|e] eqn:H3.
  2:{ exists dist, a, 0%Z,
        [AnitaURL (image_url arch);
         AnitaAnita dist (work_dir arch) "16G" "2G" true], (Boot a).
      repeat split; first [ done | by repeat apply prefix_cons; apply prefix_nil ]. }
  pose proof (returned_snoc E [_; _] _ _ R2 H3) as R3. cbn [app] in R3.
  destruct (E [_; _; _] _) as [u|e] eqn:H4.
  2:{ exists dist, a, child,
        [AnitaURL (image_url arch);
         AnitaAnita dist (work_dir arch) "16G" "2G" true; Boot a],
        (Login child).
      repeat split; first [ done | by repeat apply prefix_cons; apply prefix_nil ]. }
  pose proof (returned_snoc E [_; _; _] _ _ R3 H4) as R4. cbn [app] in R4.
  destruct (perform_spec E (shell_calls child (commands_value arch release))
              _ R4) as (k & Hk & Htr & Hr).
  destruct (perform E _ _) as [h r]. cbn [fst snd] in *. subst h.
  exists dist, a, child.
  destruct r as [[]|e].
  - destruct Hr as [-> Hret]. rewrite firstn_all.
    eexists _, (Halt a). split; [reflexivity|].
    cbn [app fst snd]. done.
  - destruct Hr as (j & c & -> & Hj & Hret & Hraise).
    rewrite (take_S_r _ _ _ Hj), app_assoc.
    eexists _, c. split; [reflexivity|]. cbn [fst snd]. split.
    + rewrite <- app_assoc, <- (take_S_r _ _ _ Hj).
      do 4 apply prefix_cons. apply prefix_app_r, prefix_take.
    + split; [done|]. split; [done|]. split; [done|].
      apply shell_calls_lookup in Hj as (cmd & _ & ->). done.
Qed.

(** Without both arguments the script stops at [sys.argv[...]], before
    any call. *)
Lemma mkvm_no_args argv E :
  argv !! 1 = None \/ argv !! 2 = None ->
  run (mkvm argv) E = ([], Exc "IndexError").
Proof.
  intros Hargs. unfold run, mkvm, bind, index.
  destruct (argv !! 1) as [arch|]; [|reflexivity].
  destruct Hargs as [?| ->]; [discriminate | reflexivity].
Qed.

(** X2: the exit status a shell command returns is dropped: two libraries
    that agree on every other call, and on which shell commands raise what,
    give the same run. *)
Lemma mkvm_exit_status_ignored argv E E' :
  (forall h c, is_shell_cmd c = false -> E h c = E' h c) ->
  (forall h c, is_shell_cmd c = true -> same_outcome (E h c) (E' h c)) ->
  run (mkvm argv) E = run (mkvm argv) E'.
Proof.
  intros Hother Hshell.
  destruct (argv !! 1) as [arch|] eqn:Harch;
    [destruct (argv !! 2) as [release|] eqn:Hrel|].
  2,3: by rewrite !mkvm_no_args by auto.
  rewrite !(mkvm_unfold argv arch release) by done. cbv zeta.
  rewrite <- Hother by done. destruct (E [] _) as [dist|e]; [|done].
  rewrite <- Hother by done. destruct (E [_] _) as [a|e]; [|done].
  rewrite <- Hother by done. destruct (E [_; _] _) as [child|e]; [|done].
  rewrite <- Hother by done. destruct (E [_; _; _] _) as [u|e]; [|done].
  rewrite (perform_ext E E'); [done|].
  intros h c Hc. apply Hshell.
  apply list_elem_of_lookup in Hc as [j Hj].
  by apply shell_calls_lookup in Hj as (cmd & _ & ->).
Qed.

(** *** Facts about [full_trace] *)

Lemma shell_cmds_shell_calls child cmds :
  shell_cmds (shell_calls child cmds) = cmds.
Proof.
  induction cmds as [|cmd cmds IH]; [done|].
  unfold shell_cmds, shell_calls in *. cbn. by rewrite IH.
Qed.

Lemma shell_cmds_full_trace arch release dist a child :
  shell_cmds (full_trace arch release dist a child) = commands_value arch release.
Proof.
  unfold full_trace. generalize (commands_value arch release) as cmds.
  intros cmds. unfold shell_cmds. rewrite !omap_app.
  fold (shell_cmds (shell_calls child cmds)).
  rewrite shell_cmds_shell_calls. cbn. apply app_nil_r.
Qed.

Lemma shell_cmds_prefix (tr full : list call) :
  tr `prefix_of` full -> shell_cmds tr `prefix_of` shell_cmds full.
Proof.
  intros [rest ->]. unfold shell_cmds. rewrite omap_app. by eexists.
Qed.

Lemma filter_shell_calls (f : call -> bool) child cmds :
  (forall cmd, f (ShellCmd child cmd 3600) = false) ->
  List.filter f (shell_calls child cmds) = [].
Proof.
  intros Hf. induction cmds as [|cmd cmds IH]; [done|].
  unfold shell_calls in *. cbn. by rewrite Hf.
Qed.

Lemma boots_full_trace arch release dist a child :
  boots (full_trace arch release dist a child) = 1.
Proof.
  unfold boots, full_trace. generalize (commands_value arch release) as cmds.
  intros cmds. rewrite !List.filter_app. by rewrite filter_shell_calls.
Qed.

Lemma halts_full_trace arch release dist a child :
  halts (full_trace arch release dist a child) = 1.
Proof.
  unfold halts, full_trace. generalize (commands_value arch release) as cmds.
  intros cmds. rewrite !List.filter_app. by rewrite filter_shell_calls.
Qed.

Lemma filter_prefix_length (f : call -> bool) (tr full : list call) :
  tr `prefix_of` full ->
  length (List.filter f tr) <= length (List.filter f full).
Proof.
  intros [rest ->]. rewrite List.filter_app, length_app. lia.
Qed.

Lemma length_full_trace arch release dist a child :
  length (full_trace arch release dist a child)
  = 5 + length (commands_value arch release).
Proof.
  unfold full_trace, shell_calls. rewrite !length_app, length_map.
  cbn [length]. lia.
Qed.

(** Where the calls of [full_trace] sit. *)
Lemma full_trace_lookup arch release dist a child i c :
  let n := length (commands_value arch release) in
  full_trace arch release dist a child !! i = Some c ->
  (i = 0 /\ c = AnitaURL (image_url arch)) \/
  (i = 1 /\ c = AnitaAnita dist (work_dir arch) "16G" "2G" true) \/
  (i = 2 /\ c = Boot a) \/
  (i = 3 /\ c = Login child) \/
  (4 <= i < 4 + n /\ is_shell_cmd c = true) \/
  (i = 4 + n /\ c = Halt a).
Proof.
  unfold full_trace. generalize (commands_value arch release) as cmds.
  intros cmds Hi.
  apply lookup_app_Some in Hi as [Hi | [Hge Hi]].
  - destruct i as [|[|[|[|i]]]]; cbn in Hi; simplify_eq; auto 10.
  - cbn [length] in Hge, Hi. right; right; right; right.
    apply lookup_app_Some in Hi as [Hi | [Hge' Hi]].
    + left. apply lookup_lt_Some in Hi as Hlt.
      unfold shell_calls in Hlt. rewrite length_map in Hlt.
      apply shell_calls_lookup in Hi as (cmd & _ & ->).
      split; [lia | done].
    + right. unfold shell_calls in Hge', Hi. rewrite length_map in Hge', Hi.
      apply list_lookup_singleton_Some in Hi as [Hz <-].
      split; [lia | done].
Qed.

(** The [commands] list, element by element: the three here-documents,
    [dhcpcd], the five [pkg_add] snippets with both arguments filled in,
    and the four closing commands. *)
Lemma commands_value_eq arch release :
  exists rc_local ifconfig fstab,
    commands_value arch release =
      [ rc_local; ifconfig; "dhcpcd";
        pkg_add arch release "bash curl";
        pkg_add arch release "git-base";
        pkg_add arch release "mozilla-rootcerts mozilla-rootcerts-openssl go14";
        pkg_add arch release "emacs25-nox11 vim screen";
        pkg_add arch release "clang cmake";
        fstab;
        "echo sshd=yes >> /etc/rc.conf";
        "echo PermitRootLogin without-password >> /etc/ssh/sshd_config";
        "/etc/rc.d/sshd restart";
        "sync; shutdown -hp now" ] /\
    String.prefix "cat >> /etc/rc.local <<EOF" rc_local = true /\
    String.prefix "cat > /etc/ifconfig.vioif0 << EOF" ifconfig = true /\
    String.prefix "ed /etc/fstab << EOF" fstab = true.
Proof.
  do 3 eexists. split; [reflexivity|]. by vm_compute.
Qed.

(** C2: the shell commands sent to the guest are, in every run, an initial
    segment of the [commands] list in its literal order (rc.local
    here-document, ifconfig.vioif0, dhcpcd, the five pkg_add snippets, the
    fstab edit, the rc.conf and sshd_config appends, the sshd restart and
    [sync; shutdown -hp now] last): nothing is skipped in between,
    reordered or repeated, and a run that completes has sent all of them. *)
Theorem mkvm_commands_in_order argv arch release E :
  argv !! 1 = Some arch -> argv !! 2 = Some release ->
  (exists rc_local ifconfig fstab,
    commands_value arch release =
      [ rc_local; ifconfig; "dhcpcd";
        pkg_add arch release "bash curl";
        pkg_add arch release "git-base";
        pkg_add arch release "mozilla-rootcerts mozilla-rootcerts-openssl go14";
        pkg_add arch release "emacs25-nox11 vim screen";
        pkg_add arch release "clang cmake";
        fstab;
        "echo sshd=yes >> /etc/rc.conf";
        "echo PermitRootLogin without-password >> /etc/ssh/sshd_config";
        "/etc/rc.d/sshd restart";
        "sync; shutdown -hp now" ] /\
    String.prefix "cat >> /etc/rc.local <<EOF" rc_local = true /\
    String.prefix "cat > /etc/ifconfig.vioif0 << EOF" ifconfig = true /\
    String.prefix "ed /etc/fstab << EOF" fstab = true) /\
  shell_cmds (fst (run (mkvm argv) E)) `prefix_of` commands_value arch release /\
  (snd (run (mkvm argv) E) = Ok tt ->
   shell_cmds (fst (run (mkvm argv) E)) = commands_value arch release).
Proof.
  intros Harch Hrel. split; [apply commands_value_eq|].
  destruct (mkvm_shape argv arch release E Harch Hrel)
    as (dist & a & child & h & c & Htr & Hpre & _ & _ & Hend).
  rewrite Htr. split.
  - rewrite <- (shell_cmds_full_trace arch release dist a child).
    by apply shell_cmds_prefix.
  - intros Hok. rewrite Hok in Hend. rewrite Hend.
    apply shell_cmds_full_trace.
Qed.

Lemma mkvm_commands_in_order_witness :
  sample_argv !! 1 = Some "amd64" /\ sample_argv !! 2 = Some "9.0" /\
  snd (run (mkvm sample_argv) env_ok) = Ok tt /\
  shell_cmds (fst (run (mkvm sample_argv) env_ok))
  = commands_value "amd64" "9.0".
Proof.
  do 3 (split; [reflexivity|]).
  apply (mkvm_commands_in_order sample_argv "amd64" "9.0" env_ok);
    reflexivity.
Defined.

(** C1: an exception raised by the final [a.halt()] is suppressed and the
    script completes normally; an exception raised by a shell command of
    the loop propagates unchanged and ends the script at once, so that no
    later command (and no halt) runs. *)
Theorem mkvm_error_handling argv E :
  (forall k a e,
     fst (run (mkvm argv) E) !! k = Some (Halt a) ->
     E (take k (fst (run (mkvm argv) E))) (Halt a) = Raises e ->
     snd (run (mkvm argv) E) = Ok tt /\
     length (fst (run (mkvm argv) E)) = S k) /\
  (forall k c e,
     fst (run (mkvm argv) E) !! k = Some c ->
     is_shell_cmd c = true ->
     E (take k (fst (run (mkvm argv) E))) c = Raises e ->
     snd (run (mkvm argv) E) = Exc e /\
     length (fst (run (mkvm argv) E)) = S k).
Proof.
  destruct (argv !! 1) as [arch|] eqn:Harch;
    [destruct (argv !! 2) as [release|] eqn:Hrel|].
  2,3: rewrite (mkvm_no_args argv E) by auto; split; intros k ? e Hk;
       cbn [fst] in Hk; rewrite lookup_nil in Hk; discriminate.
  destruct (mkvm_shape argv arch release E Harch Hrel)
    as (dist & a & child & h & c & Htr & Hpre & Hret & _ & Hend).
  rewrite Htr. split.
  - intros k a' e Hk Hraise.
    destruct (returned_snoc_lookup E h c k _ e Hret Hk Hraise)
      as (-> & <- & Hc).
    rewrite length_app. cbn [length]. split; [|lia].
    destruct (snd (run (mkvm argv) E)) as [[]|e']; [done|].
    destruct Hend as [_ ?]. discriminate.
  - intros k c' e Hk Hshell Hraise.
    destruct (returned_snoc_lookup E h c k _ e Hret Hk Hraise)
      as (-> & -> & Hc).
    rewrite length_app. cbn [length]. split; [|lia].
    destruct (snd (run (mkvm argv) E)) as [[]|e'].
    + pose proof (f_equal length Hend) as Hlen.
      rewrite length_app, length_full_trace in Hlen. cbn [length] in Hlen.
      apply (f_equal (fun l => l !! length h)) in Hend.
      rewrite list_lookup_middle in Hend by done. symmetry in Hend.
      apply full_trace_lookup in Hend.
      destruct Hend as [[? ->]|[[? ->]|[[? ->]|[[? ->]|[[? ?]|[? ->]]]]]];
        first [discriminate | lia].
    + destruct Hend as [Hc' _]. congruence.
Qed.
Lemma mkvm_error_handling_witness :
  (snd (run (mkvm sample_argv) env_halt_timeout) = Ok tt /\
   length (fst (run (mkvm sample_argv) env_halt_timeout)) = 18) /\
  (snd (run (mkvm sample_argv) env_dhcpcd_eof) = Exc "pexpect.EOF" /\
   length (fst (run (mkvm sample_argv) env_dhcpcd_eof)) = 7).
Proof.
  split.
  - apply (proj1 (mkvm_error_handling sample_argv env_halt_timeout)
             17 2%Z "pexpect.TIMEOUT"); vm_compute; reflexivity.
  - apply (proj2 (mkvm_error_handling sample_argv env_dhcpcd_eof)
             6 (ShellCmd 3 "dhcpcd" 3600) "pexpect.EOF");
      vm_compute; reflexivity.
Defined.

(** C7: for every [arch] argument (the script being given both of its
    arguments), the first call builds the URL object for
    [https://cdn.netbsd.org/pub/NetBSD/NetBSD-9.0/<arch>/], and the VM is
    constructed from that object with working directory
    [work-NetBSD-<arch>], disk size 16G, memory size 2G and persist
    enabled; no other URL or VM object is built in the run. *)
Theorem mkvm_vm_configuration argv arch release E :
  argv !! 1 = Some arch -> argv !! 2 = Some release ->
  fst (run (mkvm argv) E) !! 0
    = Some (AnitaURL ("https://cdn.netbsd.org/pub/NetBSD/NetBSD-9.0/"
                        +:+ arch +:+ "/")) /\
  (forall dist,
     E [] (AnitaURL (image_url arch)) = Returns dist ->
     fst (run (mkvm argv) E) !! 1
       = Some (AnitaAnita dist ("work-NetBSD-" +:+ arch) "16G" "2G" true)) /\
  (forall k dist workdir disk_size memory_size persist,
     fst (run (mkvm argv) E) !! k
       = Some (AnitaAnita dist workdir disk_size memory_size persist) ->
     k = 1 /\ E [] (AnitaURL (image_url arch)) = Returns dist /\
     workdir = "work-NetBSD-" +:+ arch /\ disk_size = "16G" /\
     memory_size = "2G" /\ persist = true) /\
  (forall k url, fst (run (mkvm argv) E) !! k = Some (AnitaURL url) -> k = 0).
Proof.
  intros Harch Hrel.
  destruct (mkvm_shape argv arch release E Harch Hrel)
    as (dist & a & child & h & c & Htr & Hpre & Hret & Hdist & Hend).
  rewrite Htr.
  assert (Hfull : forall k x, (h ++ [c]) !! k = Some x ->
                    full_trace arch release dist a child !! k = Some x)
    by (intros k x Hk; by eapply prefix_lookup_Some).
  assert (H0 : (h ++ [c]) !! 0 = Some (AnitaURL (image_url arch))).
  { destruct ((h ++ [c]) !! 0) as [x|] eqn:Hx.
    - by rewrite <- (Hfull 0 x Hx).
    - apply lookup_ge_None in Hx. rewrite length_app in Hx.
      cbn [length] in Hx. lia. }
  split; [exact H0|]. split; [|split].
  - intros d Hd. destruct h as [|x h].
    + cbn in H0. injection H0 as ->.
      destruct (snd (run (mkvm argv) E)) as [[]|e].
      * apply (f_equal length) in Hend. rewrite length_full_trace in Hend.
        cbn in Hend. lia.
      * destruct Hend as [Hraise _]. congruence.
    + rewrite Hdist in Hd by done. injection Hd as <-.
      assert (Hlt : 1 < length ((x :: h) ++ [c]))
        by (rewrite length_app; cbn [length]; lia).
      rewrite (prefix_lookup_lt _ _ 1 Hlt Hpre). reflexivity.
  - intros k d w ds ms p Hk. pose proof (Hfull _ _ Hk) as Hk'.
    apply full_trace_lookup in Hk'.
    destruct Hk' as [[? ?]|[[-> [= -> -> -> -> ->]]|[[? ?]|[[? ?]|[[? ?]|[? ?]]]]]];
      try discriminate.
    repeat split. apply Hdist. intros ->. cbn in Hk. discriminate.
  - intros k u Hk. pose proof (Hfull _ _ Hk) as Hk'.
    apply full_trace_lookup in Hk'.
    destruct Hk' as [[? ?]|[[? ?]|[[? ?]|[[? ?]|[[? ?]|[? ?]]]]]];
      first [done | discriminate].
Qed.
Lemma mkvm_vm_configuration_witness :
  sample_argv !! 1 = Some "amd64" /\ sample_argv !! 2 = Some "9.0" /\
  env_ok [] (AnitaURL (image_url "amd64")) = Returns 1%Z /\
  fst (run (mkvm sample_argv) env_ok) !! 1
  = Some (AnitaAnita 1 "work-NetBSD-amd64" "16G" "2G" true).
Proof.
  do 3 (split; [reflexivity|]).
  apply (mkvm_vm_configuration sample_argv "amd64" "9.0" env_ok);
    reflexivity.
Defined.

(** C8, as the script has it: the machine is booted at most once and
    halted at most once; a boot precedes every shell command and the halt
    follows all of them; a run that completes normally has exactly one
    boot and one halt, and the halt is reached only in such a run. *)
Theorem mkvm_boot_halt_lifecycle argv E :
  boots (fst (run (mkvm argv) E)) <= 1 /\
  halts (fst (run (mkvm argv) E)) <= 1 /\
  (forall i c,
     fst (run (mkvm argv) E) !! i = Some c -> is_shell_cmd c = true ->
     exists b a, b < i /\ fst (run (mkvm argv) E) !! b = Some (Boot a)) /\
  (forall i j c c',
     fst (run (mkvm argv) E) !! i = Some c -> is_shell_cmd c = true ->
     fst (run (mkvm argv) E) !! j = Some c' -> is_halt c' = true ->
     i < j) /\
  (snd (run (mkvm argv) E) = Ok tt ->
   boots (fst (run (mkvm argv) E)) = 1 /\
   halts (fst (run (mkvm argv) E)) = 1) /\
  (halts (fst (run (mkvm argv) E)) = 1 -> snd (run (mkvm argv) E) = Ok tt).
Proof.
  destruct (argv !! 1) as [arch|] eqn:Harch;
    [destruct (argv !! 2) as [release|] eqn:Hrel|].
  2,3: rewrite (mkvm_no_args argv E) by auto; cbn [fst snd];
       unfold boots, halts; cbn [List.filter length];
       repeat split;
       first [ lia | discriminate
             | intros i ? ? Hi; rewrite lookup_nil in Hi; discriminate
             | intros i ? ? ? Hi; rewrite lookup_nil in Hi; discriminate ].
  destruct (mkvm_shape argv arch release E Harch Hrel)
    as (dist & a & child & h & c & Htr & Hpre & Hret & _ & Hend).
  rewrite Htr.
  assert (Hfull : forall k x, (h ++ [c]) !! k = Some x ->
                    full_trace arch release dist a child !! k = Some x)
    by (intros k x Hk; by eapply prefix_lookup_Some).
  split; [|split; [|split; [|split; [|split]]]].
  - rewrite <- (boots_full_trace arch release dist a child).
    by apply filter_prefix_length.
  - rewrite <- (halts_full_trace arch release dist a child).
    by apply filter_prefix_length.
  - intros i x Hi Hx. pose proof (Hfull _ _ Hi) as Hi'.
    apply full_trace_lookup in Hi'.
    destruct Hi' as [[? ->]|[[? ->]|[[? ->]|[[? ->]|[[Hrange _]|[? ->]]]]]];
      try discriminate.
    exists 2, a. split; [lia|].
    apply lookup_lt_Some in Hi as Hlt.
    assert (Hlt2 : 2 < length (h ++ [c])) by lia.
    rewrite (prefix_lookup_lt _ _ 2 Hlt2 Hpre). reflexivity.
  - intros i j x y Hi Hx Hj Hy.
    pose proof (Hfull _ _ Hi) as Hi'. pose proof (Hfull _ _ Hj) as Hj'.
    apply full_trace_lookup in Hi', Hj'.
    destruct Hi' as [[? ->]|[[? ->]|[[? ->]|[[? ->]|[[Hrange _]|[? ->]]]]]];
      try discriminate.
    destruct Hj' as [[? ->]|[[? ->]|[[? ->]|[[? ->]|[[_ Hs]|[-> _]]]]]];
      try discriminate; [|lia].
    destruct y; discriminate.
  - intros Hok. rewrite Hok in Hend. rewrite Hend.
    split; [apply boots_full_trace | apply halts_full_trace].
  - intros Hhalts. destruct (snd (run (mkvm argv) E)) as [[]|e]; [done|].
    destruct Hend as [_ Hc]. exfalso.
    unfold halts in Hhalts. rewrite List.filter_app in Hhalts.
    cbn [List.filter] in Hhalts. rewrite Hc, app_nil_r in Hhalts.
    (* a halt inside [h] would sit before the last call of the trace *)
    destruct (List.filter is_halt h) as [|y l] eqn:Hf; [discriminate|].
    assert (Hy : List.In y (List.filter is_halt h)) by (rewrite Hf; left; done).
    apply List.filter_In in Hy as [Hy Hyh].
    apply list_elem_of_In, list_elem_of_lookup in Hy as [j Hj].
    apply lookup_lt_Some in Hj as Hlt.
    pose proof (Hfull j y (lookup_app_l_Some _ _ _ _ Hj)) as Hj'.
    apply full_trace_lookup in Hj'.
    pose proof (prefix_length _ _ Hpre) as Hlen.
    rewrite length_app, length_full_trace in Hlen. cbn [length] in Hlen.
    destruct Hj' as [[? ->]|[[? ->]|[[? ->]|[[? ->]|[[_ Hs]|[-> _]]]]]];
      try discriminate; [|lia].
    destruct y; discriminate.
Qed.

Lemma mkvm_boot_halt_lifecycle_witness :
  snd (run (mkvm sample_argv) env_ok) = Ok tt /\
  boots (fst (run (mkvm sample_argv) env_ok)) = 1 /\
  halts (fst (run (mkvm sample_argv) env_ok)) = 1.
Proof.
  split; [reflexivity|].
  apply (mkvm_boot_halt_lifecycle sample_argv env_ok). reflexivity.
Defined.

(** Not every run boots once and halts once: when a shell command
    raises, the script ends without calling halt, and without both
    arguments it never boots. *)
Lemma mkvm_halt_not_in_every_run :
  boots (fst (run (mkvm sample_argv) env_dhcpcd_eof)) = 1 /\
  halts (fst (run (mkvm sample_argv) env_dhcpcd_eof)) = 0 /\
  boots (fst (run (mkvm ["mkvm.py"]) env_ok)) = 0 /\
  ~ (forall argv E,
       boots (fst (run (mkvm argv) E)) = 1 /\
       halts (fst (run (mkvm argv) E)) = 1).
Proof.
  do 3 (split; [reflexivity|]).
  intros Hall. destruct (Hall sample_argv env_dhcpcd_eof) as [_ Hh].
  vm_compute in Hh. discriminate.
Qed.
(** C9, as the script has it: the run depends on the command line only
    through [sys.argv[1]] and [sys.argv[2]]: two argument vectors that
    agree on both give the same calls (commands and VM configuration
    included) and the same outcome, whatever the library does. *)
Theorem mkvm_argv_dependence argv argv' E :
  argv !! 1 = argv' !! 1 -> argv !! 2 = argv' !! 2 ->
  run (mkvm argv) E = run (mkvm argv') E.
Proof.
  intros H1 H2. unfold run, mkvm, index. by rewrite H1, H2.
Qed.

Lemma mkvm_argv_dependence_witness :
  sample_argv !! 1 = ["./mkvm.py"; "amd64"; "9.0"; "extra"] !! 1 /\
  sample_argv !! 2 = ["./mkvm.py"; "amd64"; "9.0"; "extra"] !! 2 /\
  run (mkvm sample_argv) env_ok
  = run (mkvm ["./mkvm.py"; "amd64"; "9.0"; "extra"]) env_ok.
Proof.
  do 2 (split; [reflexivity|]).
  apply (mkvm_argv_dependence sample_argv
           ["./mkvm.py"; "amd64"; "9.0"; "extra"] env_ok); reflexivity.
Defined.

(** The run does depend on the command line: the script reads its two
    positional arguments, and both the VM configuration and the command
    list change with them. *)
Lemma mkvm_behaviour_depends_on_argv :
  fst (run (mkvm ["mkvm.py"; "amd64"; "9.0"]) env_ok) !! 0
    = Some (AnitaURL "https://cdn.netbsd.org/pub/NetBSD/NetBSD-9.0/amd64/") /\
  fst (run (mkvm ["mkvm.py"; "i386"; "8.1"]) env_ok) !! 0
    = Some (AnitaURL "https://cdn.netbsd.org/pub/NetBSD/NetBSD-9.0/i386/") /\
  shell_cmds (fst (run (mkvm ["mkvm.py"; "amd64"; "9.0"]) env_ok)) !! 4
    = Some "env PKG_PATH=http://ftp.netbsd.org/pub/pkgsrc/packages/NetBSD/amd64/9.0/All/ pkg_add git-base" /\
  shell_cmds (fst (run (mkvm ["mkvm.py"; "i386"; "8.1"]) env_ok)) !! 4
    = Some "env PKG_PATH=http://ftp.netbsd.org/pub/pkgsrc/packages/NetBSD/i386/8.1/All/ pkg_add git-base" /\
  ~ (forall argv argv' E, run (mkvm argv) E = run (mkvm argv') E).
Proof.
  do 4 (split; [reflexivity|]).
  intros Hall.
  pose proof (Hall ["mkvm.py"; "amd64"; "9.0"] ["mkvm.py"; "i386"; "8.1"] env_ok)
    as Heq.
  apply (f_equal (fun r => fst r !! 0)) in Heq.
  vm_compute in Heq. discriminate.
Qed.
End MkvmFacts.

(** ** tricium_simple.py *)

Section TriciumFacts.
Import TriciumSimple.
Implicit Types (E : env call value) (api : Api).

(** The recipe, with its binds unfolded. *)
Lemma RunSteps_unfold api E :
  run (RunSteps api) E =
    match E [] (fetch_call api) with
    | Raises e => ([fetch_call api], Exc e)
    | Returns msg =>
        match E [fetch_call api] (checkout_call api) with
        | Raises e => ([fetch_call api; checkout_call api], Exc e)
        | Returns _ =>
            match E [fetch_call api; checkout_call api] (files_call api) with
            | Raises e =>
                ([fetch_call api; checkout_call api; files_call api], Exc e)
            | Returns files =>
                ([fetch_call api; checkout_call api; files_call api;
                  analyze_call api files msg],
                 match E [fetch_call api; checkout_call api; files_call api]
                         (analyze_call api files msg) with
                 | Returns _ => Ok tt
                 | Raises e => Exc e
                 end)
            end
        end
    end.
Proof.
  destruct api as [rp [hst prj chg ps]].
  unfold run, RunSteps, fetch_call, checkout_call, files_call, analyze_call,
    change_ref. cbn [gerrit_change_repo_project gerrit_change host project
                     change patchset].
  unfold bind.
  change (fmt "https://%s" [FStr hst] E [])
    with (@ret call value _ ("https://" +:+ (hst +:+ "")) E []).
  rewrite (append_nil_r hst). unfold ret at 1. unfold invoke at 1. cbn [app].
  destruct (E [] _) as [msg|e]; [|reflexivity].
  change (fmt "https://%s/%s" [FStr hst; FStr prj] E ?h)
    with (@ret call value _ ("https://" +:+ (hst +:+ ("/" +:+ (prj +:+ "")))) E h).
  rewrite (append_nil_r prj). unfold ret at 1.
  change (fmt "refs/changes/%d/%d/%d" [FInt (chg mod 100); FInt chg; FInt ps] E ?h)
    with (@ret call value _
            ("refs/changes/" +:+ (str_of_int (chg mod 100) +:+ ("/" +:+
               (str_of_int chg +:+ ("/" +:+ (str_of_int ps +:+ "")))))) E h).
  rewrite (append_nil_r (str_of_int ps)). unfold ret at 1.
  rewrite exec_eq. cbn [app].
  destruct (E [_] _) as [u|e]; [|reflexivity].
  unfold invoke at 1. cbn [app].
  destruct (E [_; _] _) as [files|e]; [|reflexivity].
  rewrite exec_eq. reflexivity.
Qed.
(** The five ways a run of the recipe can go. *)
Lemma RunSteps_cases api E :
  (exists e,
     E [] (fetch_call api) = Raises e /\
     run (RunSteps api) E = ([fetch_call api], Exc e)) \/
  (exists msg e,
     E [] (fetch_call api) = Returns msg /\
     E [fetch_call api] (checkout_call api) = Raises e /\
     run (RunSteps api) E = ([fetch_call api; checkout_call api], Exc e)) \/
  (exists msg u e,
     E [] (fetch_call api) = Returns msg /\
     E [fetch_call api] (checkout_call api) = Returns u /\
     E [fetch_call api; checkout_call api] (files_call api) = Raises e /\
     run (RunSteps api) E
     = ([fetch_call api; checkout_call api; files_call api], Exc e)) \/
  (exists msg u files r,
     E [] (fetch_call api) = Returns msg /\
     E [fetch_call api] (checkout_call api) = Returns u /\
     E [fetch_call api; checkout_call api] (files_call api) = Returns files /\
     E [fetch_call api; checkout_call api; files_call api]
       (analyze_call api files msg) = r /\
     run (RunSteps api) E
     = ([fetch_call api; checkout_call api; files_call api;
         analyze_call api files msg],
        match r with Returns _ => Ok tt | Raises e => Exc e end)).
Proof.
  rewrite RunSteps_unfold.
  destruct (E [] _) as [msg|e] eqn:H0; [|left; by exists e].
  destruct (E [_] _) as [u|e] eqn:H1; [|right; left; by exists msg, e].
  destruct (E [_; _] _) as [files|e] eqn:H2;
    [|right; right; left; by exists msg, u, e].
  right; right; right.
  by exists msg, u, files,
    (E [fetch_call api; checkout_call api; files_call api]
       (analyze_call api files msg)).
Qed.

(** C10: the recipe has no error handling of its own: an exception raised
    by any of its module calls (description fetch, checkout, affected-file
    listing, analyzer run) leaves [RunSteps] unchanged, with no later call
    made; and [RunSteps] raises nothing that a module call did not raise. *)
Theorem tricium_no_error_handling api E :
  (forall k c e,
     fst (run (RunSteps api) E) !! k = Some c ->
     E (take k (fst (run (RunSteps api) E))) c = Raises e ->
     snd (run (RunSteps api) E) = Exc e /\
     length (fst (run (RunSteps api) E)) = S k) /\
  (forall e,
     snd (run (RunSteps api) E) = Exc e ->
     exists k c,
       fst (run (RunSteps api) E) !! k = Some c /\
       length (fst (run (RunSteps api) E)) = S k /\
       E (take k (fst (run (RunSteps api) E))) c = Raises e).
Proof.
  destruct (RunSteps_cases api E)
    as [(e0 & H0 & ->)|[(msg & e0 & H0 & H1 & ->)|
        [(msg & u & e0 & H0 & H1 & H2 & ->)|
         (msg & u & files & r & H0 & H1 & H2 & H3 & ->)]]];
    cbn [fst snd]; split.
  - intros [|k] c e Hk He; cbn in Hk, He; simplify_eq;
    (split; first [congruence | reflexivity]).
  - intros e [= <-]. exists 0, (fetch_call api). done.
  - intros [|[|k]] c e Hk He; cbn in Hk, He; simplify_eq;
    (split; first [congruence | reflexivity]).
  - intros e [= <-]. exists 1, (checkout_call api). done.
  - intros [|[|[|k]]] c e Hk He; cbn in Hk, He; simplify_eq;
    (split; first [congruence | reflexivity]).
  - intros e [= <-]. exists 2, (files_call api). done.
  - intros [|[|[|[|k]]]] c e Hk He; cbn in Hk, He; simplify_eq;
      first [congruence | by rewrite He].
  - intros e He. destruct r as [v|e']; simplify_eq.
    exists 3, (analyze_call api files msg). done.
Qed.

Lemma tricium_no_error_handling_witness :
  fst (run (RunSteps sample_api) env_checkout_fails) !! 1
    = Some (checkout_call sample_api) /\
  env_checkout_fails [fetch_call sample_api] (checkout_call sample_api)
    = Raises "StepFailure" /\
  snd (run (RunSteps sample_api) env_checkout_fails) = Exc "StepFailure" /\
  length (fst (run (RunSteps sample_api) env_checkout_fails)) = 2.
Proof.
  do 2 (split; [reflexivity|]).
  apply (proj1 (tricium_no_error_handling sample_api env_checkout_fails)
           1 (checkout_call sample_api) "StepFailure"); reflexivity.
Defined.
(** C5: a run makes at most one analyzer run; when it is made it is the
    fourth call, with the four analyzers HTTPS_CHECK, SPELLCHECKER,
    INCLUSIVE_LANGUAGE_CHECK, COPYRIGHT in this order, the checkout path,
    the files the listing returned and the description the fetch
    returned; and it is made, exactly once, whenever the change was
    fetched (description, checkout and file listing all returned). *)
Theorem tricium_one_analyzer_run api E :
  analyzer_runs (fst (run (RunSteps api) E)) <= 1 /\
  (forall k analyzers input_base affected_files commit_message,
     fst (run (RunSteps api) E) !! k
       = Some (run_legacy analyzers input_base affected_files commit_message) ->
     k = 3 /\
     analyzers = [HTTPS_CHECK; SPELLCHECKER; INCLUSIVE_LANGUAGE_CHECK; COPYRIGHT] /\
     input_base = join start_dir [gerrit_change_repo_project api] /\
     (exists url ref,
        fst (run (RunSteps api) E) !! 1
        = Some (checkout url ref input_base false)) /\
     E [] (fetch_call api) = Returns commit_message /\
     E [fetch_call api; checkout_call api] (files_call api)
       = Returns affected_files) /\
  (forall msg u files,
     E [] (fetch_call api) = Returns msg ->
     E [fetch_call api] (checkout_call api) = Returns u ->
     E [fetch_call api; checkout_call api] (files_call api) = Returns files ->
     fst (run (RunSteps api) E)
       = [fetch_call api; checkout_call api; files_call api;
          run_legacy [HTTPS_CHECK; SPELLCHECKER; INCLUSIVE_LANGUAGE_CHECK; COPYRIGHT]
            (join start_dir [gerrit_change_repo_project api]) files msg] /\
     analyzer_runs (fst (run (RunSteps api) E)) = 1).
Proof.
  destruct (RunSteps_cases api E)
    as [(e0 & H0 & ->)|[(msg & e0 & H0 & H1 & ->)|
        [(msg & u & e0 & H0 & H1 & H2 & ->)|
         (msg & u & files & r & H0 & H1 & H2 & H3 & ->)]]];
    cbn [fst snd]; (split; [cbn; lia|]); split.
  - intros [|k] ? ? ? ? Hk; cbn in Hk; simplify_eq.
  - intros; congruence.
  - intros [|[|k]] ? ? ? ? Hk; cbn in Hk; simplify_eq.
  - intros; congruence.
  - intros [|[|[|k]]] ? ? ? ? Hk; cbn in Hk; simplify_eq.
  - intros; congruence.
  - intros [|[|[|[|k]]]] an p f m Hk; cbn in Hk; simplify_eq.
    unfold analyze_call in Hk. injection Hk as <- <- <- <-.
    repeat split; try done. do 2 eexists; reflexivity.
  - intros msg' u' files' Hm Hu Hf.
    rewrite H0 in Hm. rewrite H2 in Hf. simplify_eq. split; reflexivity.
Qed.

Lemma tricium_one_analyzer_run_witness :
  env_sim [] (fetch_call sample_api) = Returns (VStr "doc: fix typo") /\
  env_sim [fetch_call sample_api] (checkout_call sample_api) = Returns VNone /\
  env_sim [fetch_call sample_api; checkout_call sample_api]
    (files_call sample_api) = Returns (VFiles ["go/README.md"]) /\
  analyzer_runs (fst (run (RunSteps sample_api) env_sim)) = 1.
Proof.
  do 3 (split; [reflexivity|]).
  apply (proj2 (proj2 (tricium_one_analyzer_run sample_api env_sim))
           (VStr "doc: fix typo") VNone (VFiles ["go/README.md"]));
    reflexivity.
Defined.

(** C6: the recipe checks out [refs/changes/<C mod 100>/<C>/<P>] for the
    change number [C] and the patch set [P], each number in plain decimal:
    the numeral reads back as the number, and the first component has one
    digit when [C mod 100] is below ten (it is not padded to two). *)
Theorem tricium_checkout_ref api E :
  (forall k url ref dir_path submodules,
     fst (run (RunSteps api) E) !! k
       = Some (checkout url ref dir_path submodules) ->
     k = 1 /\
     ref = "refs/changes/"
             +:+ str_of_int (change (gerrit_change api) mod 100) +:+ "/"
             +:+ str_of_int (change (gerrit_change api)) +:+ "/"
             +:+ str_of_int (patchset (gerrit_change api))) /\
  (forall msg,
     E [] (fetch_call api) = Returns msg ->
     exists url dir_path submodules,
       fst (run (RunSteps api) E) !! 1
       = Some (checkout url
                 (change_ref (change (gerrit_change api))
                    (patchset (gerrit_change api)))
                 dir_path submodules)) /\
  parse_int (str_of_int (change (gerrit_change api) mod 100))
    = Some (change (gerrit_change api) mod 100)%Z /\
  parse_int (str_of_int (change (gerrit_change api)))
    = Some (change (gerrit_change api)) /\
  parse_int (str_of_int (patchset (gerrit_change api)))
    = Some (patchset (gerrit_change api)) /\
  ((change (gerrit_change api) mod 100 < 10)%Z ->
   String.length (str_of_int (change (gerrit_change api) mod 100)) = 1) /\
  ((10 <= change (gerrit_change api) mod 100)%Z ->
   String.length (str_of_int (change (gerrit_change api) mod 100)) = 2).
Proof.
  split; [|split].
  - destruct (RunSteps_cases api E)
      as [(e0 & H0 & ->)|[(msg & e0 & H0 & H1 & ->)|
          [(msg & u & e0 & H0 & H1 & H2 & ->)|
           (msg & u & files & r & H0 & H1 & H2 & H3 & ->)]]];
      cbn [fst snd].
    + intros [|k] ? ? ? ? Hk; cbn in Hk; simplify_eq.
    + intros [|[|k]] ? ? ? ? Hk; cbn in Hk; simplify_eq.
      unfold checkout_call in Hk. by injection Hk as <- <- <- <-.
    + intros [|[|[|k]]] ? ? ? ? Hk; cbn in Hk; simplify_eq.
      unfold checkout_call in Hk. by injection Hk as <- <- <- <-.
    + intros [|[|[|[|k]]]] ? ? ? ? Hk; cbn in Hk; simplify_eq.
      unfold checkout_call in Hk. by injection Hk as <- <- <- <-.
  - intros msg Hmsg. unfold checkout_call.
    destruct (RunSteps_cases api E)
      as [(e0 & H0 & ->)|[(msg' & e0 & H0 & H1 & ->)|
          [(msg' & u & e0 & H0 & H1 & H2 & ->)|
           (msg' & u & files & r & H0 & H1 & H2 & H3 & ->)]]];
      cbn [fst snd]; [congruence| | |]; do 3 eexists; reflexivity.
  - repeat split; try apply parse_str_of_int; apply str_of_int_mod_100.
Qed.

Lemma tricium_checkout_ref_witness :
  fst (run (RunSteps sample_api_05) env_sim) !! 1
    = Some (checkout "https://go-review.googlesource.com/go"
              "refs/changes/5/86705/2" (join start_dir ["go"]) false) /\
  (86705 mod 100 < 10)%Z /\
  String.length (str_of_int (86705 mod 100)) = 1.
Proof.
  split; [reflexivity|]. split; [reflexivity|].
  apply (tricium_checkout_ref sample_api_05 env_sim). reflexivity.
Defined.

Example change_ref_fixture : change_ref 86753 1 = "refs/changes/53/86753/1".
Proof. reflexivity. Qed.

Example change_ref_unpadded : change_ref 86705 2 = "refs/changes/5/86705/2".
Proof. reflexivity. Qed.

(** *** The two fixtures *)

(** No module call raises in the simulation of a fixture that injects no
    failing step, and [RunSteps] raises nothing of its own. *)
Lemma RunSteps_succeeds api E :
  all_steps_return E -> status_of (snd (run (RunSteps api) E)) = SUCCESS.
Proof.
  intros Hall. rewrite RunSteps_unfold.
  destruct (Hall [] (fetch_call api)) as [msg ->].
  destruct (Hall [fetch_call api] (checkout_call api)) as [u ->].
  destruct (Hall [fetch_call api; checkout_call api] (files_call api))
    as [files ->].
  cbn [snd].
  by destruct (Hall [fetch_call api; checkout_call api; files_call api]
                 (analyze_call api files msg)) as [v ->].
Qed.

(** C3: the first fixture of [GenTests] is [one_file]: change 86753,
    patch set 1, linux 64-bit, the single existing file
    [start_dir/go/README.md], with a [StatusSuccess] post-check; run on
    its input, with every simulated step returning, [RunSteps] ends with
    overall status success, as the post-check requires. *)
Theorem tricium_one_file_success t api E :
  GenTests !! 0 = Some t -> input_of t api -> all_steps_return E ->
  name t = Some "one_file" /\
  path_exists t = [join start_dir ["go"; "README.md"]] /\
  platform t = [("linux", 64%Z)] /\
  change (gerrit_change api) = 86753%Z /\
  patchset (gerrit_change api) = 1%Z /\
  post_check_StatusSuccess ∈ post_hooks t /\
  status_of (snd (run (RunSteps api) E)) = SUCCESS /\
  post_checks_hold t (status_of (snd (run (RunSteps api) E))).
Proof.
  intros [= <-] (b & [= <-] & Hc & Hp) Hall.
  pose proof (RunSteps_succeeds api E Hall) as Hs.
  do 5 (split; [done|]). split; [|split; [done | by intros _]].
  apply list_elem_of_In. cbn. auto.
Qed.

Lemma tricium_one_file_success_witness :
  GenTests !! 0
    = Some (test_add (test_add (test_with_patch "one_file" ["README.md"])
                               (api_post post_check_StatusSuccess))
                     (api_post post_process_DropExpectation)) /\
  all_steps_return env_sim /\
  status_of (snd (run (RunSteps sample_api) env_sim)) = SUCCESS.
Proof.
  split; [reflexivity|].
  assert (Hsim : all_steps_return env_sim)
    by (intros h c; destruct c; eexists; reflexivity).
  split; [exact Hsim|].
  refine (proj1 (proj2 (proj2 (proj2 (proj2 (proj2 (proj2
    (tricium_one_file_success _ sample_api env_sim eq_refl _ Hsim)))))))).
  eexists. repeat split; reflexivity.
Defined.

(** C4: the second fixture of [GenTests] is [many_files]: the same change
    and platform, the six existing files go.mod, go.sum, build.go,
    LICENSE, README.md and main.go under [start_dir/go], with a
    [StatusSuccess] post-check; run on its input, with every simulated
    step returning, [RunSteps] ends with overall status success. *)
Theorem tricium_many_files_success t api E :
  GenTests !! 1 = Some t -> input_of t api -> all_steps_return E ->
  name t = Some "many_files" /\
  path_exists t
    = map (fun f => join start_dir ["go"; f])
        ["go.mod"; "go.sum"; "build.go"; "LICENSE"; "README.md"; "main.go"] /\
  platform t = [("linux", 64%Z)] /\
  change (gerrit_change api) = 86753%Z /\
  patchset (gerrit_change api) = 1%Z /\
  post_check_StatusSuccess ∈ post_hooks t /\
  status_of (snd (run (RunSteps api) E)) = SUCCESS /\
  post_checks_hold t (status_of (snd (run (RunSteps api) E))).
Proof.
  intros [= <-] (b & [= <-] & Hc & Hp) Hall.
  pose proof (RunSteps_succeeds api E Hall) as Hs.
  do 5 (split; [done|]). split; [|split; [done | by intros _]].
  apply list_elem_of_In. cbn. auto.
Qed.

Lemma tricium_many_files_success_witness :
  GenTests !! 1
    = Some (test_add (test_add (test_with_patch "many_files"
                                  ["go.mod"; "go.sum"; "build.go"; "LICENSE";
                                   "README.md"; "main.go"])
                               (api_post post_check_StatusSuccess))
                     (api_post post_process_DropExpectation)) /\
  all_steps_return env_sim /\
  status_of (snd (run (RunSteps sample_api) env_sim)) = SUCCESS.
Proof.
  split; [reflexivity|].
  assert (Hsim : all_steps_return env_sim)
    by (intros h c; destruct c; eexists; reflexivity).
  split; [exact Hsim|].
  refine (proj1 (proj2 (proj2 (proj2 (proj2 (proj2 (proj2
    (tricium_many_files_success _ sample_api env_sim eq_refl _ Hsim)))))))).
  eexists. repeat split; reflexivity.
Defined.

(** The fixtures are exactly these two. *)
Lemma GenTests_names :
  map name GenTests = [Some "one_file"; Some "many_files"].
Proof. reflexivity. Qed.
End TriciumFacts.

(** ** mkvm.py: arguments, objects and outcomes *)

Section MkvmRuns.
Import Mkvm.
Implicit Types (E : env call Z) (argv : list string) (arch release : string).

Lemma prefix_take_eq {A} (l full : list A) n :
  l `prefix_of` full -> n <= length l -> take n l = take n full.
Proof. intros [rest ->] Hn. by rewrite take_app_le. Qed.

Lemma length_commands_value arch release :
  length (commands_value arch release) = 13.
Proof.
  destruct (commands_value_eq arch release) as (? & ? & ? & -> & _).
  reflexivity.
Qed.

(** The objects of a run: what the URL constructor returned goes to the
    VM constructor, what that returned is booted, and what the boot
    returned is the console. *)
Lemma mkvm_objects argv arch release E :
  argv !! 1 = Some arch -> argv !! 2 = Some release ->
  exists dist a child,
    fst (run (mkvm argv) E) `prefix_of` full_trace arch release dist a child /\
    (1 < length (fst (run (mkvm argv) E)) ->
     E [] (AnitaURL (image_url arch)) = Returns dist) /\
    (2 < length (fst (run (mkvm argv) E)) ->
     E [AnitaURL (image_url arch)]
       (AnitaAnita dist (work_dir arch) "16G" "2G" true) = Returns a) /\
    (3 < length (fst (run (mkvm argv) E)) ->
     E [AnitaURL (image_url arch);
        AnitaAnita dist (work_dir arch) "16G" "2G" true] (Boot a)
     = Returns child).
Proof.
  intros Harch Hrel. rewrite (mkvm_unfold argv arch release E Harch Hrel).
  cbv zeta. unfold full_trace. cbn [app].
  destruct (E [] _) as [dist|e] eqn:H1.
  2:{ exists 0%Z, 0%Z, 0%Z. cbn [fst length].
      split; [by repeat apply prefix_cons; apply prefix_nil|].
      repeat split; intros; lia. }
  destruct (E [_] _) as [a|e] eqn:H2.
  2:{ exists dist, 0%Z, 0%Z. cbn [fst length].
      split; [by repeat apply prefix_cons; apply prefix_nil|].
      repeat split; intros; first [done | lia]. }
  destruct (E [_; _] _) as [child|e] eqn:H3.
  2:{ exists dist, a, 0%Z. cbn [fst length].
      split; [by repeat apply prefix_cons; apply prefix_nil|].
      repeat split; intros; first [done | lia]. }
  exists dist, a, child. split; [|done].
  destruct (E [_; _; _] _) as [u|e] eqn:H4.
  2:{ cbn [fst]. by repeat apply prefix_cons; apply prefix_nil. }
  destruct (perform_spec E (shell_calls child (commands_value arch release))
              [AnitaURL (image_url arch);
               AnitaAnita dist (work_dir arch) "16G" "2G" true;
               Boot a; Login child]) as (k & Hk & Htr & Hr).
  { apply (returned_snoc E [_; _; _] _ _
             (returned_snoc E [_; _] _ _
                (returned_snoc E [_] _ _
                   (returned_snoc E [] _ _ (returned_nil E) H1) H2) H3) H4). }
  destruct (perform E _ _) as [h r]. cbn [fst snd] in *. subst h.
  destruct r as [[]|e]; cbn [fst app].
  - destruct Hr as [-> _]. by rewrite firstn_all.
  - do 4 apply prefix_cons. apply prefix_app_r, prefix_take.
Qed.

Lemma full_trace_lookup_shell arch release dist a child i ch cmd t :
  full_trace arch release dist a child !! i = Some (ShellCmd ch cmd t) ->
  ch = child /\ t = 3600%Z /\ 4 <= i /\
  commands_value arch release !! (i - 4) = Some cmd.
Proof.
  unfold full_trace. generalize (commands_value arch release) as cmds.
  intros cmds Hi.
  apply lookup_app_Some in Hi as [Hi | [Hge Hi]].
  - destruct i as [|[|[|[|i]]]]; cbn in Hi; simplify_eq.
  - cbn [length] in Hge, Hi.
    apply lookup_app_Some in Hi as [Hi | [_ Hi]].
    + apply shell_calls_lookup in Hi as (cmd' & Hcmd & [= -> -> ->]). done.
    + apply list_lookup_singleton_Some in Hi as [_ ?]. discriminate.
Qed.

(** X1: with fewer than two arguments after the program name the script
    stops with [IndexError] before it calls the library at all, and with
    both arguments it always makes at least one call. *)
Theorem mkvm_missing_arguments argv E :
  (length argv < 3 -> run (mkvm argv) E = ([], Exc "IndexError")) /\
  (fst (run (mkvm argv) E) = [] <-> length argv < 3).
Proof.
  assert (Hshort : length argv < 3 -> run (mkvm argv) E = ([], Exc "IndexError")).
  { intros Hlen. apply mkvm_no_args. right. apply lookup_ge_None. lia. }
  split; [exact Hshort|]. split.
  - intros Hnil. destruct (decide (length argv < 3)) as [|Hge]; [done|].
    destruct (lookup_lt_is_Some_2 argv 1 ltac:(lia)) as [arch Harch].
    destruct (lookup_lt_is_Some_2 argv 2 ltac:(lia)) as [release Hrel].
    destruct (mkvm_shape argv arch release E Harch Hrel)
      as (_ & _ & _ & h & c & Htr & _).
    rewrite Htr in Hnil. by destruct h.
  - intros Hlen. by rewrite Hshort.
Qed.

Lemma mkvm_missing_arguments_witness :
  length ["mkvm.py"; "amd64"] < 3 /\
  run (mkvm ["mkvm.py"; "amd64"]) env_ok = ([], Exc "IndexError").
Proof.
  split; [cbn; lia|].
  apply (mkvm_missing_arguments ["mkvm.py"; "amd64"] env_ok). cbn. lia.
Defined.

Lemma mkvm_exit_status_ignored_witness :
  (forall h c, is_shell_cmd c = false -> env_ok h c = env_exit_status_1 h c) /\
  (forall h c, is_shell_cmd c = true ->
               same_outcome (env_ok h c) (env_exit_status_1 h c)) /\
  run (mkvm sample_argv) env_ok = run (mkvm sample_argv) env_exit_status_1.
Proof.
  assert (H1 : forall h c, is_shell_cmd c = false ->
                           env_ok h c = env_exit_status_1 h c)
    by (intros h c; destruct c; first [reflexivity | discriminate]).
  assert (H2 : forall h c, is_shell_cmd c = true ->
                           same_outcome (env_ok h c) (env_exit_status_1 h c))
    by (intros h c; destruct c; first [exact (fun _ => I) | discriminate]).
  split; [exact H1|]. split; [exact H2|].
  exact (mkvm_exit_status_ignored sample_argv env_ok env_exit_status_1 H1 H2).
Defined.

(** X3: the objects are threaded as the script writes them: the machine
    booted is the object the VM constructor returned, the console logged
    into is the one the boot returned, every shell command goes to that
    console with a timeout of 3600, and the halt is sent to the machine
    that was booted. *)
Theorem mkvm_object_flow argv E :
  (forall i a,
     fst (run (mkvm argv) E) !! i = Some (Boot a) ->
     i = 2 /\
     exists c, fst (run (mkvm argv) E) !! 1 = Some c /\
               E (take 1 (fst (run (mkvm argv) E))) c = Returns a) /\
  (forall i child,
     fst (run (mkvm argv) E) !! i = Some (Login child) ->
     i = 3 /\
     exists a, fst (run (mkvm argv) E) !! 2 = Some (Boot a) /\
               E (take 2 (fst (run (mkvm argv) E))) (Boot a) = Returns child) /\
  (forall i child cmd timeout,
     fst (run (mkvm argv) E) !! i = Some (ShellCmd child cmd timeout) ->
     timeout = 3600%Z /\ fst (run (mkvm argv) E) !! 3 = Some (Login child)) /\
  (forall i a,
     fst (run (mkvm argv) E) !! i = Some (Halt a) ->
     fst (run (mkvm argv) E) !! 2 = Some (Boot a)).
Proof.
  destruct (argv !! 1) as [arch|] eqn:Harch;
    [destruct (argv !! 2) as [release|] eqn:Hrel|].
  2,3: rewrite (mkvm_no_args argv E) by auto; cbn [fst];
       repeat split; intros;
       match goal with H : [] !! _ = Some _ |- _ =>
         rewrite lookup_nil in H; discriminate end.
  destruct (mkvm_objects argv arch release E Harch Hrel)
    as (dist & a & child & Hpre & Hd & Ha & Hc).
  set (tr := fst (run (mkvm argv) E)) in *.
  assert (Hfull : forall k x, tr !! k = Some x ->
                    full_trace arch release dist a child !! k = Some x)
    by (intros k x Hk; by eapply prefix_lookup_Some).
  assert (Hat : forall k, k < length tr ->
                  tr !! k = full_trace arch release dist a child !! k)
    by (intros k Hk; by apply prefix_lookup_lt).
  assert (Htake : forall k, k <= length tr ->
                    take k tr = take k (full_trace arch release dist a child))
    by (intros k Hk; by apply prefix_take_eq).
  split; [|split; [|split]].
  - intros i a' Hi. apply lookup_lt_Some in Hi as Hlt.
    pose proof (Hfull _ _ Hi) as Hi'. apply full_trace_lookup in Hi'.
    destruct Hi' as [[? ?]|[[? ?]|[[-> [= ->]]|[[? ?]|[[? Hs]|[? ?]]]]]];
      try discriminate.
    split; [done|]. eexists. rewrite Hat, Htake by lia.
    split; [reflexivity|]. apply Ha. lia.
  - intros i ch Hi. apply lookup_lt_Some in Hi as Hlt.
    pose proof (Hfull _ _ Hi) as Hi'. apply full_trace_lookup in Hi'.
    destruct Hi' as [[? ?]|[[? ?]|[[? ?]|[[-> [= ->]]|[[? Hs]|[? ?]]]]]];
      try discriminate.
    split; [done|]. exists a. rewrite Hat, Htake by lia.
    split; [reflexivity|]. apply Hc. lia.
  - intros i ch cmd t Hi. apply lookup_lt_Some in Hi as Hlt.
    pose proof (Hfull _ _ Hi) as Hi'.
    apply full_trace_lookup_shell in Hi' as (-> & -> & Hge & _).
    split; [done|]. by rewrite Hat by lia.
  - intros i a' Hi. apply lookup_lt_Some in Hi as Hlt.
    pose proof (Hfull _ _ Hi) as Hi'. apply full_trace_lookup in Hi'.
    destruct Hi' as [[? ?]|[[? ?]|[[? ?]|[[? ?]|[[? Hs]|[-> [= ->]]]]]]];
      try discriminate.
    by rewrite Hat by lia.
Qed.

Lemma mkvm_object_flow_witness :
  fst (run (mkvm sample_argv) env_ok) !! 17 = Some (Halt 2) /\
  fst (run (mkvm sample_argv) env_ok) !! 2 = Some (Boot 2).
Proof.
  split; [reflexivity|].
  apply (mkvm_object_flow sample_argv env_ok) with (i := 17). reflexivity.
Defined.

(** X4: a run never makes more than 18 calls (two constructors, boot,
    login, thirteen shell commands, halt), and it completes normally
    exactly when it has made all 18. *)
Theorem mkvm_completes_iff_all_calls argv E :
  length (fst (run (mkvm argv) E)) <= 18 /\
  (snd (run (mkvm argv) E) = Ok tt <-> length (fst (run (mkvm argv) E)) = 18).
Proof.
  destruct (argv !! 1) as [arch|] eqn:Harch;
    [destruct (argv !! 2) as [release|] eqn:Hrel|].
  2,3: rewrite (mkvm_no_args argv E) by auto; cbn [fst snd length];
       (split; [lia | split; [discriminate | lia]]).
  destruct (mkvm_shape argv arch release E Harch Hrel)
    as (dist & a & child & h & c & Htr & Hpre & _ & _ & Hend).
  pose proof (length_full_trace arch release dist a child) as Hlen.
  rewrite length_commands_value in Hlen.
  pose proof (prefix_length _ _ Hpre) as Hle.
  rewrite Htr. split; [lia|]. split.
  - intros Hok. rewrite Hok in Hend. by rewrite Hend.
  - intros H18.
    pose proof (prefix_length_eq _ _ Hpre ltac:(lia)) as Heq.
    destruct (snd (run (mkvm argv) E)) as [[]|e]; [done|].
    destruct Hend as [_ Hc]. unfold full_trace in Heq.
    rewrite !app_assoc in Heq. apply app_inj_tail in Heq as [_ ->].
    discriminate.
Qed.

Lemma mkvm_completes_iff_all_calls_witness :
  length (fst (run (mkvm sample_argv) env_halt_timeout)) = 18 /\
  snd (run (mkvm sample_argv) env_halt_timeout) = Ok tt.
Proof.
  split; [reflexivity|].
  apply (mkvm_completes_iff_all_calls sample_argv env_halt_timeout).
  reflexivity.
Defined.

(** X5: the script raises nothing of its own beyond the [IndexError] of a
    missing argument: any other exception that ends a run was raised by
    the last call made, which is not the halt, every earlier call having
    returned. *)
Theorem mkvm_exception_origin argv E e :
  snd (run (mkvm argv) E) = Exc e ->
  (length argv < 3 /\ e = "IndexError" /\ fst (run (mkvm argv) E) = []) \/
  (3 <= length argv /\
   exists h c,
     fst (run (mkvm argv) E) = h ++ [c] /\ returned E h /\
     E h c = Raises e /\ is_halt c = false).
Proof.
  intros Hexc.
  destruct (decide (length argv < 3)) as [Hlt|Hge].
  - left.
    assert (Hrun : run (mkvm argv) E = ([], Exc "IndexError"))
      by (apply mkvm_no_args; right; apply lookup_ge_None; lia).
    rewrite Hrun in Hexc |- *. cbn in Hexc. by injection Hexc as <-.
  - right. split; [lia|].
    destruct (lookup_lt_is_Some_2 argv 1 ltac:(lia)) as [arch Harch].
    destruct (lookup_lt_is_Some_2 argv 2 ltac:(lia)) as [release Hrel].
    destruct (mkvm_shape argv arch release E Harch Hrel)
      as (dist & a & child & h & c & Htr & _ & Hret & _ & Hend).
    rewrite Hexc in Hend. destruct Hend as [Hraise Hhalt].
    by exists h, c.
Qed.

Lemma mkvm_exception_origin_witness :
  snd (run (mkvm sample_argv) env_dhcpcd_eof) = Exc "pexpect.EOF" /\
  ((length sample_argv < 3 /\ "pexpect.EOF" = "IndexError" /\
    fst (run (mkvm sample_argv) env_dhcpcd_eof) = []) \/
   (3 <= length sample_argv /\
    exists h c,
      fst (run (mkvm sample_argv) env_dhcpcd_eof) = h ++ [c] /\
      returned env_dhcpcd_eof h /\
      env_dhcpcd_eof h c = Raises "pexpect.EOF" /\ is_halt c = false)).
Proof.
  split; [reflexivity|].
  apply (mkvm_exception_origin sample_argv env_dhcpcd_eof "pexpect.EOF").
  reflexivity.
Defined.
End MkvmRuns.

(** ** Splitting at a character *)

Section SplitFacts.

Lemma split_on_no_sep sep (a : string) :
  has_char sep a = false -> split_on sep a = [a].
Proof.
  induction a as [|c a IH]; cbn; [done|].
  intros [Hc Ha]%orb_false_iff. rewrite Hc, (IH Ha). done.
Qed.

Lemma split_on_app sep (a rest : string) :
  has_char sep a = false ->
  split_on sep (a +:+ String sep rest) = a :: split_on sep rest.
Proof.
  induction a as [|c a IH].
  - intros _. change (split_on sep (String sep rest) = "" :: split_on sep rest).
    cbn. by rewrite Ascii.eqb_refl.
  - cbn [has_char]. intros [Hc Ha]%orb_false_iff.
    change (split_on sep (String c (a +:+ String sep rest))
            = String c a :: split_on sep rest).
    cbn [split_on]. rewrite Hc, (IH Ha). done.
Qed.

Lemma split_on_app_lit sep (a rest : string) :
  has_char sep a = false ->
  split_on sep (a +:+ String sep "" +:+ rest) = a :: split_on sep rest.
Proof. apply split_on_app. Qed.

Lemma string_of_uint_no_slash (d : Decimal.uint) :
  has_char "/" (NilEmpty.string_of_uint d) = false.
Proof. induction d; cbn; done. Qed.

(** A decimal numeral has no slash in it. *)
Lemma str_of_int_no_slash (n : Z) : has_char "/" (str_of_int n) = false.
Proof.
  unfold str_of_int.
  destruct (Z.to_int n) as [d|d]; cbn;
    destruct d; cbn; try done; apply string_of_uint_no_slash.
Qed.
End SplitFacts.

(** ** tricium_simple.py: results, refs and fixtures *)

Section TriciumRuns.
Import TriciumSimple.
Implicit Types (E : env call value) (api : Api).

Lemma parse_change_ref (c p : Z) :
  parse_ref (change_ref c p) = Some ((c mod 100)%Z, c, p).
Proof.
  unfold parse_ref, change_ref.
  change ("refs/changes/" +:+ ?x) with ("refs" +:+ "/" +:+ "changes" +:+ "/" +:+ x).
  rewrite !split_on_app_lit by first [reflexivity | apply str_of_int_no_slash].
  rewrite split_on_no_sep by apply str_of_int_no_slash.
  cbn [String.eqb Ascii.eqb Bool.eqb andb]. by rewrite !parse_str_of_int.
Qed.

(** X7: the ref the recipe checks out reads back, split at the slashes,
    as the change number modulo 100, the change number and the patch set;
    so two changes, or two patch sets of a change, never share a ref. *)
Theorem tricium_ref_round_trip api E :
  (forall k url ref dir_path submodules,
     fst (run (RunSteps api) E) !! k
       = Some (checkout url ref dir_path submodules) ->
     parse_ref ref
     = Some ((change (gerrit_change api) mod 100)%Z,
             change (gerrit_change api), patchset (gerrit_change api))) /\
  (forall c p c' p',
     change_ref c p = change_ref c' p' -> c = c' /\ p = p').
Proof.
  split.
  - intros k url ref d sub Hk.
    destruct (RunSteps_cases api E)
      as [(e0 & H0 & Hrun)|[(msg & e0 & H0 & H1 & Hrun)|
          [(msg & u & e0 & H0 & H1 & H2 & Hrun)|
           (msg & u & files & r & H0 & H1 & H2 & H3 & Hrun)]]];
      rewrite Hrun in Hk; cbn [fst] in Hk.
    + destruct k as [|k]; cbn in Hk; simplify_eq.
    + destruct k as [|[|k]]; cbn in Hk; simplify_eq.
      unfold checkout_call in Hk. injection Hk as <- <- <- <-.
      apply parse_change_ref.
    + destruct k as [|[|[|k]]]; cbn in Hk; simplify_eq.
      unfold checkout_call in Hk. injection Hk as <- <- <- <-.
      apply parse_change_ref.
    + destruct k as [|[|[|[|k]]]]; cbn in Hk; simplify_eq.
      unfold checkout_call in Hk. injection Hk as <- <- <- <-.
      apply parse_change_ref.
  - intros c p c' p' Heq. apply (f_equal parse_ref) in Heq.
    rewrite !parse_change_ref in Heq. by injection Heq as _ -> ->.
Qed.

Lemma tricium_ref_round_trip_witness :
  fst (run (RunSteps sample_api_05) env_sim) !! 1
    = Some (checkout "https://go-review.googlesource.com/go"
              "refs/changes/5/86705/2" (join start_dir ["go"]) false) /\
  parse_ref "refs/changes/5/86705/2" = Some (5%Z, 86705%Z, 2%Z).
Proof.
  split; [reflexivity|].
  apply (proj1 (tricium_ref_round_trip sample_api_05 env_sim)
           1 "https://go-review.googlesource.com/go" _
           (join start_dir ["go"]) false).
  reflexivity.
Defined.

(** X6: the recipe looks at what the description fetch and the file
    listing return, and at nothing else: of the checkout and of the
    analyzer run it only matters whether they raise. *)
Theorem tricium_results_ignored api E E' :
  (forall h c, result_kept c = true -> E h c = E' h c) ->
  (forall h c, result_kept c = false -> same_outcome (E h c) (E' h c)) ->
  run (RunSteps api) E = run (RunSteps api) E'.
Proof.
  intros Hkept Hdrop. rewrite !RunSteps_unfold.
  rewrite <- (Hkept [] (fetch_call api)) by done.
  destruct (E [] _) as [msg|e]; [|done].
  pose proof (Hdrop [fetch_call api] (checkout_call api) eq_refl) as Hco.
  destruct (E [_] (checkout_call api)) as [u|e],
    (E' [_] (checkout_call api)) as [u'|e']; cbn in Hco; try done;
    [|by subst].
  rewrite <- (Hkept _ (files_call api)) by done.
  destruct (E [_; _] _) as [files|e]; [|done].
  pose proof (Hdrop [fetch_call api; checkout_call api; files_call api]
                (analyze_call api files msg) eq_refl) as Han.
  destruct (E [_; _; _] _) as [v|e], (E' [_; _; _] _) as [v'|e'];
    cbn in Han; try done. by subst.
Qed.

Lemma tricium_results_ignored_witness :
  (forall h c, result_kept c = true -> env_sim h c = env_sim_findings h c) /\
  (forall h c, result_kept c = false ->
               same_outcome (env_sim h c) (env_sim_findings h c)) /\
  run (RunSteps sample_api) env_sim = run (RunSteps sample_api) env_sim_findings.
Proof.
  assert (H1 : forall h c, result_kept c = true ->
                           env_sim h c = env_sim_findings h c)
    by (intros h c; destruct c; first [reflexivity | discriminate]).
  assert (H2 : forall h c, result_kept c = false ->
                           same_outcome (env_sim h c) (env_sim_findings h c))
    by (intros h c; destruct c; first [exact (fun _ => I) | discriminate]).
  split; [exact H1|]. split; [exact H2|].
  exact (tricium_results_ignored sample_api env_sim env_sim_findings H1 H2).
Defined.

(** The recipe checks out into [start_dir/<repository project>]. *)
Lemma tricium_checkout_dir api E k url ref dir_path submodules :
  fst (run (RunSteps api) E) !! k = Some (checkout url ref dir_path submodules) ->
  dir_path = join start_dir [gerrit_change_repo_project api].
Proof.
  intros Hk.
  destruct (RunSteps_cases api E)
    as [(e0 & H0 & Hrun)|[(msg & e0 & H0 & H1 & Hrun)|
        [(msg & u & e0 & H0 & H1 & H2 & Hrun)|
         (msg & u & files & r & H0 & H1 & H2 & H3 & Hrun)]]];
    rewrite Hrun in Hk; cbn [fst] in Hk;
    repeat (destruct k as [|k]; cbn in Hk; simplify_eq);
    unfold checkout_call in Hk; by injection Hk as <- <- <- <-.
Qed.



(** X9: whatever its name and list of files, a fixture built by
    [test_with_patch] declares one existing path per file, in order, and
    each is the file directly inside the directory the recipe checks out
    to when the change's repository project is [go]. *)
Theorem test_with_patch_paths n files api E :
  gerrit_change_repo_project api = "go" ->
  name (test_with_patch n files) = Some n /\
  length (path_exists (test_with_patch n files)) = length files /\
  (forall k url ref dir_path submodules i p,
     fst (run (RunSteps api) E) !! k
       = Some (checkout url ref dir_path submodules) ->
     path_exists (test_with_patch n files) !! i = Some p ->
     exists f, files !! i = Some f /\ p = join dir_path [f]).
Proof.
  intros Hgo.
  assert (Hpaths : path_exists (test_with_patch n files)
                   = map (fun f => join (join start_dir ["go"]) [f]) files)
    by reflexivity.
  split; [reflexivity|]. split; [by rewrite Hpaths, length_map|].
  intros k url ref d sub i p Hk Hi.
  assert (Hd : d = join start_dir ["go"]).
  { rewrite (tricium_checkout_dir api E k url ref d sub Hk). by rewrite Hgo. }
  rewrite Hpaths in Hi. change (map ?f ?l) with (f <$> l) in Hi.
  apply list_lookup_fmap_Some in Hi as (f & Hf & ->).
  exists f. by rewrite Hd.
Qed.

Lemma test_with_patch_paths_witness :
  gerrit_change_repo_project sample_api = "go" /\
  fst (run (RunSteps sample_api) env_sim) !! 1
    = Some (checkout_call sample_api) /\
  path_exists (test_with_patch "many_files" ["go.mod"; "go.sum"]) !! 1
    = Some (join start_dir ["go"; "go.sum"]) /\
  exists f, ["go.mod"; "go.sum"] !! 1 = Some f /\
            join start_dir ["go"; "go.sum"] = join (join start_dir ["go"]) [f].
Proof.
  do 3 (split; [reflexivity|]).
  apply (proj2 (proj2 (test_with_patch_paths "many_files" ["go.mod"; "go.sum"]
                         sample_api env_sim eq_refl))
           1 "https://go-review.googlesource.com/go" "refs/changes/53/86753/1"
           (join start_dir ["go"]) false 1 (join start_dir ["go"; "go.sum"]));
    reflexivity.
Defined.


End TriciumRuns.
